(** * Trivia API (backend/flaskr/__init__.py): a shallow embedding and its properties

    The Flask handlers of the trivia service are embedded as functions over an
    explicit store (the two tables) in a small state-and-exception monad.
    Python values that cross the HTTP boundary (JSON bodies, formatted
    records, response payloads) are embedded as the type [value]. *)

From Equations Require Import Equations.
From Stdlib Require Import String Ascii DecimalString.
From Stdlib Require Import List ZArith Lia Bool Permutation Sorted.
Import ListNotations.
Local Open Scope string_scope.
Local Open Scope list_scope.
Local Open Scope Z_scope.

Set Implicit Arguments.
Local Set Warnings "-register-all".

(** ** Python values *)

(** Dictionary keys: the JSON bodies use string keys, the category mapping of
    the handlers uses the integer ids as keys. *)
Inductive key : Type :=
| KStr (s : string)
| KInt (z : Z).

(** The Python values the handlers exchange.  Numbers are the integers;
    floating point numbers are outside the model.  A dictionary keeps its
    insertion order, as Python's does. *)
Inductive value : Type :=
| VNone
| VBool (b : bool)
| VInt (z : Z)
| VStr (s : string)
| VList (l : list value)
| VDict (d : list (key * value)).

Definition key_eqb (a b : key) : bool :=
  match a, b with
  | KStr s, KStr t => String.eqb s t
  | KInt x, KInt y => Z.eqb x y
  | _, _ => false
  end.

Lemma key_eqb_eq a b : key_eqb a b = true <-> a = b.
Proof.
  destruct a, b; simpl; split; intros H; try discriminate.
  - apply String.eqb_eq in H. now subst.
  - injection H as ->. apply String.eqb_refl.
  - apply Z.eqb_eq in H. now subst.
  - injection H as ->. apply Z.eqb_refl.
Qed.

(** [d.get(k)] on the association list: [None] when the key is absent. *)
Fixpoint dict_get (d : list (key * value)) (k : key) : option value :=
  match d with
  | [] => None
  | (k', v) :: d' => if key_eqb k' k then Some v else dict_get d' k
  end.

(** [d[k] = v]: an existing key keeps its position and takes the new value,
    a new key goes to the end. *)
Fixpoint dict_set (d : list (key * value)) (k : key) (v : value)
  : list (key * value) :=
  match d with
  | [] => [(k, v)]
  | (k', v') :: d' =>
      if key_eqb k' k then (k', v) :: d' else (k', v') :: dict_set d' k v
  end.

(** ** Exceptions *)

Inductive exn : Type :=
| HTTPException (code : Z)      (* raised by [abort(code)] *)
| KeyError
| TypeError
| AttributeError
| IndexError
| ValueError
| MultipleResultsFound          (* raised by [one_or_none()] *)
| StoreError.                   (* a statement the store rejects *)

Inductive result (A : Type) : Type :=
| Ok (a : A)
| Raise (e : exn).
Arguments Ok {A} a.
Arguments Raise {A} e.

Definition rbind {A B} (r : result A) (f : A -> result B) : result B :=
  match r with
  | Ok a => f a
  | Raise e => Raise e
  end.

(** ** Python primitives *)

Definition len {A} (l : list A) : Z := Z.of_nat (length l).

(** [l[start:end]]: a negative bound counts from the end of the list, and
    both bounds are clamped to the list. *)
Definition slice_bound (n x : Z) : Z :=
  if x <? 0 then Z.max (x + n) 0 else Z.min x n.

Definition py_slice {A} (l : list A) (start stop : Z) : list A :=
  let s := slice_bound (len l) start in
  let e := slice_bound (len l) stop in
  firstn (Z.to_nat (e - s)) (skipn (Z.to_nat s) l).

(** [l[i]]: a negative index counts from the end; outside the list it is an
    [IndexError]. *)
Definition py_index {A} (l : list A) (i : Z) : result A :=
  let j := if i <? 0 then i + len l else i in
  if (0 <=? j) && (j <? len l)
  then match nth_error l (Z.to_nat j) with
       | Some a => Ok a
       | None => Raise IndexError
       end
  else Raise IndexError.

Fixpoint remove_nth {A} (n : nat) (l : list A) : list A :=
  match n, l with
  | _, [] => []
  | O, _ :: t => t
  | S m, a :: t => a :: remove_nth m t
  end.

(** [del l[i]] *)
Definition py_del {A} (l : list A) (i : Z) : result (list A) :=
  let j := if i <? 0 then i + len l else i in
  if (0 <=? j) && (j <? len l)
  then Ok (remove_nth (Z.to_nat j) l)
  else Raise IndexError.

(** [x == v] for an integer [x]: Python's [bool] is a subclass of [int], so
    [1 == True] holds; an integer equals no string, list, dictionary or None. *)
Definition py_eq_int (x : Z) (v : value) : bool :=
  match v with
  | VInt z => Z.eqb x z
  | VBool b => Z.eqb x (if b then 1 else 0)
  | _ => false
  end.

Definition key_eq_int (x : Z) (k : key) : bool :=
  match k with
  | KInt z => Z.eqb x z
  | KStr _ => false
  end.

(** [x in v] for an integer [x]: membership in a list, key membership in a
    dictionary, [TypeError] for a string (its left operand must be a string)
    and for the values that are not containers. *)
Definition py_in (x : Z) (v : value) : result bool :=
  match v with
  | VList l => Ok (existsb (py_eq_int x) l)
  | VDict d => Ok (existsb (fun kv => key_eq_int x (fst kv)) d)
  | VStr _ | VNone | VBool _ | VInt _ => Raise TypeError
  end.

(** [v[k]] for a string key [k]. *)
Definition py_getitem (v : value) (k : string) : result value :=
  match v with
  | VDict d => match dict_get d (KStr k) with
               | Some x => Ok x
               | None => Raise KeyError
               end
  | _ => Raise TypeError
  end.

(** [v.get(k)]: only dictionaries have the method. *)
Definition py_get (v : value) (k : string) : result value :=
  match v with
  | VDict d => match dict_get d (KStr k) with
               | Some x => Ok x
               | None => Ok VNone
               end
  | _ => Raise AttributeError
  end.

(** ** The models and the store *)

(** Modelled from the spec: models.py (the classes [Question] and [Category],
    their [format], [insert] and [delete] methods and [setup_db]) is not part
    of the sources; the attributes and the formatted record shapes are the
    ones of the specification's data model. *)
Record Question : Type := mkQuestion {
  q_id : Z;
  q_question : string;
  q_answer : string;
  q_category : Z;
  q_difficulty : Z
}.

Record Category : Type := mkCategory {
  c_id : Z;
  c_type : string
}.

(** Modelled from the spec: [Question.format] of the missing models.py, the
    record {id, question, answer, difficulty, category}. *)
Definition format (q : Question) : value :=
  VDict [ (KStr "id", VInt (q_id q));
          (KStr "question", VStr (q_question q));
          (KStr "answer", VStr (q_answer q));
          (KStr "difficulty", VInt (q_difficulty q));
          (KStr "category", VInt (q_category q)) ].

(** Modelled from the spec: [Category.format] of the missing models.py, the
    record {id, type}. *)
Definition format_category (c : Category) : value :=
  VDict [ (KStr "id", VInt (c_id c)); (KStr "type", VStr (c_type c)) ].

Record Store : Type := mkStore {
  questions : list Question;
  categories : list Category
}.

(** ** The request *)

(** The [page] query parameter as [request.args.get('page', 1, type=int)]
    sees it: absent, present but refused by [int], or an integer. *)
Inductive arg : Type :=
| ArgMissing
| ArgInvalid
| ArgInt (z : Z).

(** The request body as [request.json] sees it. *)
Inductive body : Type :=
| NoJson                (* no JSON body: [request.json] is None *)
| BadJson               (* a body that does not parse: 400 is raised *)
| Json (v : value).

Record Request : Type := mkRequest {
  args_page : arg;
  req_body : body
}.

(** [request.args.get('page', default, type=int)] *)
Definition args_get_page (request : Request) (default : Z) : Z :=
  match args_page request with
  | ArgInt z => z
  | ArgMissing | ArgInvalid => default
  end.

Definition request_json (request : Request) : result value :=
  match req_body request with
  | NoJson => Ok VNone
  | BadJson => Raise (HTTPException 400)
  | Json v => Ok v
  end.

(** ** Utils *)

Definition QUESTIONS_PER_PAGE : Z := 10.

Definition pagination (request : Request) (selection : list Question)
  : list value :=
  let page := args_get_page request 1 in
  let start := (page - 1) * QUESTIONS_PER_PAGE in
  let end_ := start + QUESTIONS_PER_PAGE in
  let questions := map format selection in
  let current_questions := py_slice questions start end_ in
  current_questions.

(** ** The handler monad: the store is threaded, exceptions propagate *)

Definition M (A : Type) : Type := Store -> result A * Store.

Definition ret {A} (a : A) : M A := fun s => (Ok a, s).

Definition bind {A B} (m : M A) (f : A -> M B) : M B :=
  fun s => match m s with
           | (Ok a, s') => f a s'
           | (Raise e, s') => (Raise e, s')
           end.

Definition raise {A} (e : exn) : M A := fun s => (Raise e, s).

(** A pure computation that may raise. *)
Definition lift {A} (r : result A) : M A := fun s => (r, s).

(** [abort(code)] raises the HTTP exception of that code. *)
Definition abort {A} (code : Z) : M A := raise (HTTPException code).

(** [try: m except: h]: a bare [except] and [except Exception] catch every
    exception of [exn], the one raised by [abort] included. *)
Definition try_except {A} (m : M A) (h : exn -> M A) : M A :=
  fun s => match m s with
           | (Ok a, s') => (Ok a, s')
           | (Raise e, s') => h e s'
           end.

Declare Scope handler_scope.
Delimit Scope handler_scope with handler.
Notation "x <- m ;; k" := (bind m (fun x => k))
  (at level 61, m at next level, right associativity) : handler_scope.
Notation "' pat <- m ;; k" := (bind m (fun x => match x with pat => k end))
  (at level 61, pat pattern, m at next level, right associativity)
  : handler_scope.
Notation "x <~ r ;; k" := (rbind r (fun x => k))
  (at level 61, r at next level, right associativity).
Local Open Scope handler_scope.

(** ** Queries *)

(** [Question.query.all()] and [Category.query.all()]: the rows in the
    order the store returns them. *)
Definition Question_query_all : M (list Question) :=
  fun s => (Ok (questions s), s).

Definition Category_query_all : M (list Category) :=
  fun s => (Ok (categories s), s).

(** [order_by]: the rows sorted by a key, ascending. *)
Fixpoint insert_by {A} (le : A -> A -> bool) (a : A) (l : list A) : list A :=
  match l with
  | [] => [a]
  | b :: t => if le a b then a :: l else b :: insert_by le a t
  end.

Fixpoint order_by {A} (le : A -> A -> bool) (l : list A) : list A :=
  match l with
  | [] => []
  | a :: t => insert_by le a (order_by le t)
  end.

(** The key of [order_by(Question.category, Question.id)]. *)
Definition le_category_id (a b : Question) : bool :=
  (q_category a <? q_category b)
  || ((q_category a =? q_category b) && (q_id a <=? q_id b)).

(** The key of [order_by(Question.id)]. *)
Definition le_id (a b : Question) : bool := q_id a <=? q_id b.

(** [.one_or_none()] *)
Definition one_or_none {A} (rows : list A) : result (option A) :=
  match rows with
  | [] => Ok None
  | [a] => Ok (Some a)
  | _ :: _ :: _ => Raise MultipleResultsFound
  end.

(** [.first()] *)
Definition first {A} (rows : list A) : option A :=
  match rows with
  | [] => None
  | a :: _ => Some a
  end.

(** Modelled from the spec: [Question.delete] of the missing models.py
    deletes the row of the question from the store. *)
Definition Question_delete (question : Question) : M unit :=
  fun s =>
    (Ok tt,
     mkStore (filter (fun q => negb (q_id q =? q_id question)) (questions s))
             (categories s)).

(** ** Responses and error handlers *)

(** The payload is [None] for a response that is not JSON (the default page
    of an HTTP error without a registered handler). *)
Record Response : Type := mkResponse {
  status : Z;
  payload : option value
}.

Definition jsonify (d : list (key * value)) (code : Z) : Response :=
  mkResponse code (Some (VDict d)).

Definition bad_req : Response :=
  jsonify [ (KStr "success", VBool false);
            (KStr "message", VStr "Bad request");
            (KStr "error", VInt 400) ] 400.

Definition not_fond : Response :=
  jsonify [ (KStr "success", VBool false);
            (KStr "message", VStr "Resource not found");
            (KStr "error", VInt 404) ] 404.

Definition unprocessable : Response :=
  jsonify [ (KStr "success", VBool false);
            (KStr "error", VInt 422);
            (KStr "message", VStr "Unprocessable") ] 422.

Definition server_error : Response :=
  jsonify [ (KStr "success", VBool false);
            (KStr "message", VStr "Internal server error");
            (KStr "error", VInt 500) ] 500.

(** What the application answers when a handler raises: the registered
    error handler of an HTTP exception, the default page for other HTTP
    codes, and the 500 handler for any other exception. *)
Definition handle_exception (e : exn) : Response :=
  match e with
  | HTTPException code =>
      if code =? 400 then bad_req
      else if code =? 404 then not_fond
      else if code =? 422 then unprocessable
      else if code =? 500 then server_error
      else mkResponse code None
  | _ => server_error
  end.

(** Running a view function on a store: the response and the store left. *)
Definition serve (view : M Response) (s : Store) : Response * Store :=
  match view s with
  | (Ok r, s') => (r, s')
  | (Raise e, s') => (handle_exception e, s')
  end.

(** The [success] field of a JSON response, when it has one. *)
Definition success_of (r : Response) : option value :=
  match payload r with
  | Some (VDict d) => dict_get d (KStr "success")
  | _ => None
  end.

(** ** GET /questions *)

(** [{category.id: category.type for category in categories}] *)
Definition category_mapping (categories : list Category)
  : list (key * value) :=
  fold_left (fun d category =>
               dict_set d (KInt (c_id category)) (VStr (c_type category)))
            categories [].

Definition get_questions (request : Request) : M Response :=
  all <- Question_query_all ;;
  let selection := order_by le_category_id all in
  let current_questions := pagination request selection in
  categories <- Category_query_all ;;
  let formatted_categories := category_mapping categories in
  if len current_questions =? 0 then abort 404
  else
    total <- Question_query_all ;;
    ret (jsonify [ (KStr "success", VBool true);
                   (KStr "questions", VList current_questions);
                   (KStr "total_questions", VInt (len total));
                   (KStr "categories", VDict formatted_categories) ] 200).

(** ** DELETE /questions/<int:question_id> *)

Definition delete_question (request : Request) (question_id : Z)
  : M Response :=
  try_except
    (all <- Question_query_all ;;
     question <- lift (one_or_none
                         (filter (fun q => q_id q =? question_id) all)) ;;
     match question with
     | None => abort 404
     | Some question =>
         _ <- Question_delete question ;;
         rest <- Question_query_all ;;
         let selection := order_by le_id rest in
         let current_questions := pagination request selection in
         total <- Question_query_all ;;
         ret (jsonify [ (KStr "success", VBool true);
                        (KStr "deleted", VInt (q_id question));
                        (KStr "question", VList current_questions);
                        (KStr "total_questions", VInt (len total)) ] 200)
     end)
    (fun _ => abort 422).

(** ** GET /categories/<int:category_id>/questions *)

Definition get_questions_by_category (request : Request) (category_id : Z)
  : M Response :=
  all <- Question_query_all ;;
  let selection := filter (fun q => q_category q =? category_id) all in
  let current_questions := pagination request selection in
  total <- Question_query_all ;;
  let total_questions := len total in
  cats <- Category_query_all ;;
  category <- lift (one_or_none
                      (filter (fun c => c_id c =? category_id) cats)) ;;
  match category with
  | None => abort 404
  | Some category =>
      ret (jsonify [ (KStr "questions", VList current_questions);
                     (KStr "total_questions", VInt total_questions);
                     (KStr "current_category", VStr (c_type category)) ] 200)
  end.

(** ** POST /search *)

(** Case folding of the letters A to Z, character by character on the
    bytes of the text: the store's case-insensitive match on ASCII text.
    Letters outside ASCII, which the store folds by its locale, are left as
    they are, so the model is exact for ASCII texts and terms only. *)
Definition lower_ascii (c : ascii) : ascii :=
  let n := nat_of_ascii c in
  if ((65 <=? n) && (n <=? 90))%nat then ascii_of_nat (n + 32) else c.

Fixpoint lower (s : string) : string :=
  match s with
  | EmptyString => EmptyString
  | String c s' => String (lower_ascii c) (lower s')
  end.

(** SQL [LIKE] of PostgreSQL, the store of the repository's test suite: in
    the pattern [%] stands for any run of characters, [_] for any one
    character, and a backslash makes the next character literal.  A pattern
    that ends in a lone backslash is refused by the store; the patterns of
    this service end in [%], so the case does not arise and matches
    nothing here.  A character is a byte of the text, as [_] counts them
    here: exact for ASCII text. *)
Fixpoint like (p : string) : string -> bool :=
  match p with
  | EmptyString =>
      fun s => match s with EmptyString => true | String _ _ => false end
  | String c p' =>
      if Ascii.eqb c "%" then
        fix any (s : string) : bool :=
          like p' s
          || match s with EmptyString => false | String _ s' => any s' end
      else if Ascii.eqb c "_" then
        fun s => match s with
                 | EmptyString => false
                 | String _ s' => like p' s'
                 end
      else if Ascii.eqb c "\" then
        match p' with
        | EmptyString => fun _ => false
        | String d p'' =>
            fun s => match s with
                     | EmptyString => false
                     | String x s' => Ascii.eqb x d && like p'' s'
                     end
        end
      else
        fun s => match s with
                 | EmptyString => false
                 | String x s' => Ascii.eqb x c && like p' s'
                 end
  end.

(** [column.ilike(pattern)] *)
Definition ilike (text pattern : string) : bool :=
  like (lower pattern) (lower text).

(** ** POST /quizzes: the loop that drops the previous questions *)

(** One turn of the body of [while i < len(questions)]. *)
Definition loop_body (previous_questions : value)
           (questions : list Question) (i : Z)
  : result (list Question * Z) :=
  q <~ py_index questions i ;;
  b <~ py_in (q_id q) previous_questions ;;
  st <~ (if b : bool
         then (questions' <~ py_del questions i ;; Ok (questions', i - 1))
         else Ok (questions, i)) ;;
  Ok (fst st, snd st + 1).

Lemma remove_nth_length {A} (n : nat) (l : list A) :
  (n < length l)%nat -> length (remove_nth n l) = pred (length l).
Proof.
  revert l. induction n as [|n IH]; intros [|a t] H; simpl in *; try lia.
  rewrite IH by lia. destruct t; simpl in *; lia.
Qed.

Lemma loop_body_decreases previous_questions questions i questions' i' :
  i < len questions ->
  loop_body previous_questions questions i = Ok (questions', i') ->
  (Z.to_nat (len questions' - i') < Z.to_nat (len questions - i))%nat.
Proof.
  unfold loop_body, py_index, py_del, len. intros Hlt H.
  destruct ((0 <=? (if i <? 0 then i + _ else i))
            && ((if i <? 0 then i + _ else i) <? _)) eqn:Hrange;
    [| discriminate].
  apply andb_true_iff in Hrange as [H0 H1].
  apply Z.leb_le in H0. apply Z.ltb_lt in H1.
  destruct (nth_error questions _); [| discriminate]. simpl in H.
  destruct (py_in _ _) as [[|]|]; simpl in H; try discriminate;
    injection H as <- <-.
  - rewrite remove_nth_length by lia. lia.
  - lia.
Qed.

Definition inspect {A} (a : A) : {b : A | a = b} := exist _ a eq_refl.

(** [i = 0; while i < len(questions): ...], started at any [i]. *)
Equations? quiz_loop (previous_questions : value)
           (questions : list Question) (i : Z)
  : result (list Question)
  by wf (Z.to_nat (len questions - i)) lt :=
  quiz_loop previous_questions questions i with Z_lt_dec i (len questions) => {
    | right _ => Ok questions
    | left Hlt with inspect (loop_body previous_questions questions i) => {
        | exist _ (Ok (questions', i')) Heq =>
            quiz_loop previous_questions questions' i'
        | exist _ (Raise e) _ => Raise e } }.
Proof.
  eapply loop_body_decreases; eauto.
Qed.

(** The filter the specification asks for in place of the loop:
    [[q for q in questions if q.id not in previous_questions]]. *)
Fixpoint filter_not_previous (previous_questions : value)
         (questions : list Question) : result (list Question) :=
  match questions with
  | [] => Ok []
  | q :: rest =>
      b <~ py_in (q_id q) previous_questions ;;
      kept <~ filter_not_previous previous_questions rest ;;
      Ok (if b : bool then kept else q :: kept)
  end.

Section Runtime.

(** What [random.randint(a, b)] returns at this call when the range is not
    empty; the library promises a value of the range. *)
Variable randint : Z -> Z -> Z.

(** How the store handles a query parameter that is neither an integer nor
    null where it compares an integer column: store specific. *)
Variable coerce_other : value -> result (option Z).

(** How an f-string renders a list or a dictionary. *)
Variable format_other : value -> string.

(** [random.randint(a, b)]: an empty range is a [ValueError]. *)
Definition random_randint (a b : Z) : result Z :=
  if a <=? b then Ok (randint a b) else Raise ValueError.

(** The parameter compared with an integer column: an integer as it is,
    None as SQL null, which equals no row. *)
Definition bind_param (v : value) : result (option Z) :=
  match v with
  | VInt z => Ok (Some z)
  | VNone => Ok None
  | _ => coerce_other v
  end.

(** [Category.query.filter(Category.id == v).all()], also
    [filter_by(id=v)]. *)
Definition categories_with_id (cats : list Category) (v : value)
  : result (list Category) :=
  p <~ bind_param v ;;
  Ok (match p with
      | Some z => filter (fun c => c_id c =? z) cats
      | None => []
      end).

(** [f'{v}'] *)
Definition fstring (v : value) : string :=
  match v with
  | VStr s => s
  | VNone => "None"
  | VBool true => "True"
  | VBool false => "False"
  | VInt z => DecimalString.NilZero.string_of_int (Z.to_int z)
  | _ => format_other v
  end.

(** The loop over [current_questions] that collects the formatted
    categories. *)
Fixpoint collect_categories (cats : list Category)
         (current_questions : list value) (category : list value)
  : result (list value) :=
  match current_questions with
  | [] => Ok category
  | question :: rest =>
      c <~ py_get question "category" ;;
      current_categories <~ categories_with_id cats c ;;
      collect_categories cats rest
        (category ++ map format_category current_categories)
  end.

Definition search_questions (request : Request) : M Response :=
  try_except
    (data <- lift (request_json request) ;;
     search_term <- lift (py_get data "searchTerm") ;;
     all <- Question_query_all ;;
     let result :=
       filter (fun q => ilike (q_question q)
                              ("%" ++ fstring search_term ++ "%")%string)
              all in
     if len result =? 0 then abort 404
     else
       let formatted_questions := map format result in
       let current_questions := pagination request result in
       cats <- Category_query_all ;;
       category <- lift (collect_categories cats current_questions []) ;;
       ret (jsonify [ (KStr "success", VBool true);
                      (KStr "questions", VList formatted_questions);
                      (KStr "total_questions",
                       VInt (len formatted_questions));
                      (KStr "current_category", VList category) ] 200))
    (fun _ => abort 404).

(** The [try] block of [quiz]: the two fields of the body. *)
Definition quiz_fields (request : Request) : M (value * value) :=
  try_except
    (data <- lift (request_json request) ;;
     previous_questions <- lift (py_getitem data "previous_questions") ;;
     quiz_category <- lift (py_getitem data "quiz_category") ;;
     quiz_category_id <- lift (py_getitem quiz_category "id") ;;
     ret (previous_questions, quiz_category_id))
    (fun _ => abort 400).

(** The candidate pool: the questions of the category when the id names
    one, all the questions otherwise. *)
Definition quiz_pool (quiz_category_id : value) : M (list Question) :=
  cats <- Category_query_all ;;
  found <- lift (categories_with_id cats quiz_category_id) ;;
  match first found with
  | Some category =>
      all <- Question_query_all ;;
      ret (filter (fun q => q_category q =? c_id category) all)
  | None => Question_query_all
  end.

(** The choice among the questions left. *)
Definition random_question (questions : list Question) : result value :=
  if len questions =? 0 then Ok (VStr "")
  else
    k <~ random_randint 0 (len questions - 1) ;;
    q <~ py_index questions k ;;
    Ok (format q).

Definition quiz (request : Request) : M Response :=
  ' (previous_questions, quiz_category_id) <- quiz_fields request ;;
  pool <- quiz_pool quiz_category_id ;;
  questions <- lift (quiz_loop previous_questions pool 0) ;;
  chosen <- lift (random_question questions) ;;
  ret (jsonify [ (KStr "success", VBool true);
                 (KStr "question", chosen) ] 200).

End Runtime.

(** ** GET /categories *)

(** The loop fills the mapping and counts the rows; the response reports
    [len(categories)]. *)
Definition get_categories : M Response :=
  categories <- Category_query_all ;;
  let loop :=
    fold_left (fun st category =>
                 (dict_set (fst st) (KInt (c_id category))
                           (VStr (c_type category)),
                  snd st + 1))
              categories ([], 0) in
  let formatted_categories := fst loop in
  ret (jsonify [ (KStr "success", VBool true);
                 (KStr "categories", VDict formatted_categories);
                 (KStr "total_categories", VInt (len categories)) ] 200).

(** ** POST /questions *)

(** The key of [order_by(Question.difficulty)]. *)
Definition le_difficulty (a b : Question) : bool :=
  q_difficulty a <=? q_difficulty b.

Section Create.

(** The constructor [Question(question=, answer=, difficulty=, category=)]
    followed by [insert()], both of the missing models.py, taken as a
    parameter: it yields the row as stored, with the id the store assigned,
    or raises. *)
Variable Question_insert : value -> value -> value -> value -> M Question.

Definition create_question (request : Request) : M Response :=
  body <- lift (request_json request) ;;
  question <- lift (py_get body "question") ;;
  answer <- lift (py_get body "answer") ;;
  difficulty <- lift (py_get body "difficulty") ;;
  category <- lift (py_get body "category") ;;
  try_except
    (question <- Question_insert question answer difficulty category ;;
     all <- Question_query_all ;;
     let selection := order_by le_difficulty all in
     let current_questions := pagination request selection in
     total <- Question_query_all ;;
     ret (jsonify [ (KStr "success", VBool true);
                    (KStr "created", VInt (q_id question));
                    (KStr "questions", VList current_questions);
                    (KStr "total_questions", VInt (len total)) ] 200))
    (fun _ => abort 500).

End Create.

(** ** The specification's notions *)

(** A page is in range when it is at least 1 and starts inside the
    sequence. *)
Definition page_in_range {A} (p : Z) (selection : list A) : bool :=
  (1 <=? p) && ((p - 1) * QUESTIONS_PER_PAGE <? len selection).

(** The records of page [p] in the words of the specification: those at the
    positions (p-1)*10 (inclusive) to (p-1)*10 + 10 (exclusive). *)
Definition page_records {A} (p : Z) (records : list A) : list A :=
  firstn 10 (skipn (Z.to_nat ((p - 1) * 10)) records).

(** The candidate pool in the words of the specification: the questions of
    the category when the id names a category, all the questions when it
    names none. *)
Definition candidate_pool (s : Store) (category_id : Z) : list Question :=
  if existsb (fun c => c_id c =? category_id) (categories s)
  then filter (fun q => q_category q =? category_id) (questions s)
  else questions s.

(** Whether the JSON body of the request is an object with the field. *)
Definition has_field (request : Request) (k : string) : bool :=
  match req_body request with
  | Json (VDict d) => match dict_get d (KStr k) with
                      | Some _ => true
                      | None => false
                      end
  | _ => false
  end.

(** Containment in the words of the specification: the term occurs in the
    text as a run of consecutive characters, compared without case. *)
Fixpoint prefix_of (t s : string) : bool :=
  match t with
  | EmptyString => true
  | String c t' =>
      match s with
      | EmptyString => false
      | String x s' => Ascii.eqb x c && prefix_of t' s'
      end
  end.

Fixpoint contains (t s : string) : bool :=
  prefix_of t s
  || match s with
     | EmptyString => false
     | String _ s' => contains t s'
     end.

Definition contains_ci (term text : string) : bool :=
  contains (lower term) (lower text).

(** A term without the characters that [LIKE] reads as wildcards or as the
    escape. *)
Definition literal_ascii (c : ascii) : bool :=
  negb (Ascii.eqb c "%") && negb (Ascii.eqb c "_") && negb (Ascii.eqb c "\").

Fixpoint literal (t : string) : bool :=
  match t with
  | EmptyString => true
  | String c t' => literal_ascii c && literal t'
  end.

(** A field of a JSON response, when it has one. *)
Definition field (r : Response) (k : string) : option value :=
  match payload r with
  | Some (VDict d) => dict_get d (KStr k)
  | _ => None
  end.

(** A computation that leaves every store as it found it. *)
Definition read_only {A} (m : M A) : Prop := forall s, snd (m s) = s.

(** The values on which [x in v] raises. *)
Definition not_container (v : value) : bool :=
  match v with
  | VList _ | VDict _ => false
  | VNone | VBool _ | VInt _ | VStr _ => true
  end.

(** The argument [body.get(k, None)] passes on for an object [d]. *)
Definition get_or_none (d : list (key * value)) (k : string) : value :=
  match dict_get d (KStr k) with
  | Some v => v
  | None => VNone
  end.

(** ** Sample data *)

Definition sample_question (id category : Z) (text : string) : Question :=
  mkQuestion id text "answer" category 1.

(** Twenty-five questions, ids 1 to 25, in one category. *)
Definition sample_25 : list Question :=
  map (fun k => sample_question (Z.of_nat k) 1 "What?") (seq 1 25).

Definition sample_store : Store :=
  mkStore [ sample_question 1 1 "a";
            sample_question 2 2 "What_is";
            sample_question 3 1 "Who is it?" ]
          [ mkCategory 1 "Science"; mkCategory 2 "Art" ].

(** The twenty-five questions with the two sample categories. *)
Definition sample_store_25 : Store :=
  mkStore sample_25 (categories sample_store).

(** The sample questions with the ids [first] to [first + count - 1]. *)
Definition sample_rows (first count : nat) : list Question :=
  map (fun k => sample_question (Z.of_nat k) 1 "What?") (seq first count).

Definition page_request (p : Z) : Request := mkRequest (ArgInt p) NoJson.

Definition plain_request : Request := mkRequest ArgMissing NoJson.

Definition json_request (v : value) : Request := mkRequest ArgMissing (Json v).

Definition quiz_request (previous_questions quiz_category_id : value)
  : Request :=
  json_request
    (VDict [ (KStr "previous_questions", previous_questions);
             (KStr "quiz_category", VDict [ (KStr "id", quiz_category_id) ]) ]).

Definition search_request (term : string) : Request :=
  json_request (VDict [ (KStr "searchTerm", VStr term) ]).

(** A generator that always returns the upper bound, a store that refuses
    the parameters it would have to coerce, and a rendering of containers:
    one instance of the runtime the handlers are parametric in. *)
Definition sample_randint (a b : Z) : Z := b.
Definition sample_coerce (v : value) : result (option Z) := Raise StoreError.
Definition sample_format (v : value) : string := "".

(** A store that appends the new row with the next id, and refuses a text
    that is not a string or a number that is not an integer. *)
Definition sample_insert (question answer difficulty category : value)
  : M Question :=
  fun s =>
    match question, answer, difficulty, category with
    | VStr q, VStr a, VInt d, VInt c =>
        let row :=
          mkQuestion (1 + fold_right Z.max 0 (map q_id (questions s)))
                     q a c d in
        (Ok row, mkStore (questions s ++ [row]) (categories s))
    | _, _, _, _ => (Raise StoreError, s)
    end.

Definition create_request (question answer : string) (difficulty category : Z)
  : Request :=
  json_request (VDict [ (KStr "question", VStr question);
                        (KStr "answer", VStr answer);
                        (KStr "difficulty", VInt difficulty);
                        (KStr "category", VInt category) ]).

(** * Properties *)

Unset Implicit Arguments.

(** ** Lists, slices and sorting *)

Lemma len_nonneg {A} (l : list A) : 0 <= len l.
Proof. unfold len. lia. Qed.

Lemma len_map {A B} (f : A -> B) (l : list A) : len (map f l) = len l.
Proof. unfold len. now rewrite length_map. Qed.

Lemma len_zero {A} (l : list A) : len l = 0 <-> l = [].
Proof.
  unfold len. destruct l; simpl; split; intros H; try reflexivity;
    try discriminate; lia.
Qed.

Lemma slice_bound_gap n x : 0 <= n ->
  slice_bound n (x + 10) - slice_bound n x <= 10.
Proof.
  intros Hn. unfold slice_bound.
  destruct (x + 10 <? 0) eqn:E1; destruct (x <? 0) eqn:E2;
    try apply Z.ltb_lt in E1; try apply Z.ltb_ge in E1;
    try apply Z.ltb_lt in E2; try apply Z.ltb_ge in E2; lia.
Qed.

Lemma py_slice_length {A} (l : list A) (start : Z) :
  (length (py_slice l start (start + 10)) <= 10)%nat.
Proof.
  unfold py_slice. rewrite length_firstn.
  pose proof (slice_bound_gap (len l) start (len_nonneg l)). lia.
Qed.

(** With bounds that are not negative the slice is the positional one. *)
Lemma py_slice_positional {A} (l : list A) (start stop : Z) :
  0 <= start <= stop ->
  py_slice l start stop
  = firstn (Z.to_nat (stop - start)) (skipn (Z.to_nat start) l).
Proof.
  intros [H0 H1]. unfold py_slice, slice_bound.
  destruct (start <? 0) eqn:E1; [apply Z.ltb_lt in E1; lia |].
  destruct (stop <? 0) eqn:E2; [apply Z.ltb_lt in E2; lia |].
  unfold len.
  destruct (Z_lt_dec start (Z.of_nat (length l))) as [Hs | Hs].
  - rewrite (Z.min_l start) by lia.
    destruct (Z_le_dec stop (Z.of_nat (length l))) as [He | He].
    + now rewrite (Z.min_l stop) by lia.
    + rewrite (Z.min_r stop) by lia.
      rewrite !firstn_all2; try reflexivity; rewrite length_skipn; lia.
  - rewrite (Z.min_r start), (Z.min_r stop) by lia.
    rewrite !skipn_all2 by lia. now rewrite !firstn_nil.
Qed.

Lemma In_firstn {A} (n : nat) (l : list A) (a : A) :
  In a (firstn n l) -> In a l.
Proof.
  revert l. induction n as [|n IH]; intros [|b t]; simpl; try tauto.
  intros [H | H]; [now left | right; now apply IH].
Qed.

Lemma In_skipn {A} (n : nat) (l : list A) (a : A) :
  In a (skipn n l) -> In a l.
Proof.
  revert l. induction n as [|n IH]; intros [|b t]; simpl; try tauto.
  intros H. right. now apply IH.
Qed.

Lemma py_slice_incl {A} (l : list A) (start stop : Z) (a : A) :
  In a (py_slice l start stop) -> In a l.
Proof.
  unfold py_slice. intros H.
  apply In_firstn in H. now apply In_skipn in H.
Qed.

Lemma insert_by_perm {A} (le : A -> A -> bool) a l :
  Permutation (insert_by le a l) (a :: l).
Proof.
  induction l as [|b t IH]; simpl; [reflexivity |].
  destruct (le a b); [reflexivity |].
  rewrite IH. apply perm_swap.
Qed.

Lemma order_by_perm {A} (le : A -> A -> bool) l :
  Permutation (order_by le l) l.
Proof.
  induction l as [|a t IH]; simpl; [reflexivity |].
  rewrite insert_by_perm. now constructor.
Qed.

Section Ordering.

Variable A : Type.
Variable le : A -> A -> bool.
Hypothesis le_total : forall a b, le a b = true \/ le b a = true.
Hypothesis le_trans :
  forall a b c, le a b = true -> le b c = true -> le a c = true.

Let R (a b : A) : Prop := le a b = true.

Lemma insert_by_sorted a l :
  StronglySorted R l -> StronglySorted R (insert_by le a l).
Proof.
  induction 1 as [|b t Hs IH Hall]; simpl.
  - repeat constructor.
  - destruct (le a b) eqn:E.
    + constructor; [now constructor |].
      constructor; [exact E |].
      eapply Forall_impl; [| exact Hall].
      intros c Hc. eapply le_trans; eauto.
    + constructor; [exact IH |].
      eapply Permutation_Forall;
        [symmetry; apply insert_by_perm |].
      constructor; [| exact Hall].
      destruct (le_total a b) as [H | H]; [congruence | exact H].
Qed.

Lemma order_by_sorted l : StronglySorted R (order_by le l).
Proof.
  induction l as [|a t IH]; simpl; [constructor |].
  now apply insert_by_sorted.
Qed.

End Ordering.

Lemma StronglySorted_weaken {A} (R R' : A -> A -> Prop) (l : list A) :
  (forall a b, R a b -> R' a b) ->
  StronglySorted R l -> StronglySorted R' l.
Proof.
  intros HR. induction 1 as [|a t Hs IH Hall]; constructor; [exact IH |].
  eapply Forall_impl; [| exact Hall]. auto.
Qed.

Lemma order_by_category_id_sorted l :
  StronglySorted (fun a b => le_category_id a b = true)
                 (order_by le_category_id l).
Proof.
  apply order_by_sorted; unfold le_category_id; intros; lia.
Qed.

Lemma order_by_id_sorted l :
  StronglySorted (fun a b => le_id a b = true) (order_by le_id l).
Proof.
  apply order_by_sorted; unfold le_id; intros; lia.
Qed.

Lemma le_category_id_spec a b :
  le_category_id a b = true <->
  q_category a < q_category b
  \/ (q_category a = q_category b /\ q_id a <= q_id b).
Proof. unfold le_category_id. lia. Qed.

(** ** The pagination helper *)

Lemma pagination_unfold request selection :
  pagination request selection
  = py_slice (map format selection)
             ((args_get_page request 1 - 1) * 10)
             ((args_get_page request 1 - 1) * 10 + 10).
Proof. reflexivity. Qed.

Lemma pagination_incl request selection v :
  In v (pagination request selection) ->
  exists q, In q selection /\ v = format q.
Proof.
  rewrite pagination_unfold. intros H. apply py_slice_incl in H.
  apply in_map_iff in H as [q [Hq Hin]]. now exists q.
Qed.

Lemma pagination_nil request : pagination request [] = [].
Proof.
  rewrite pagination_unfold. unfold py_slice. simpl.
  now rewrite skipn_nil, firstn_nil.
Qed.

Lemma pagination_positive (request : Request) (selection : list Question) :
  1 <= args_get_page request 1 ->
  pagination request selection
  = firstn 10 (skipn (Z.to_nat ((args_get_page request 1 - 1) * 10))
                     (map format selection)).
Proof.
  intros Hp. rewrite pagination_unfold, py_slice_positional by lia.
  now replace (Z.to_nat ((args_get_page request 1 - 1) * 10 + 10
                         - (args_get_page request 1 - 1) * 10))
    with 10%nat by lia.
Qed.

Lemma pagination_page_records (request : Request)
      (selection : list Question) :
  1 <= args_get_page request 1 ->
  pagination request selection
  = page_records (args_get_page request 1) (map format selection).
Proof. intros Hp. unfold page_records. now apply pagination_positive. Qed.

Lemma page_records_nil {A} (p : Z) (records : list A) :
  1 <= p ->
  (page_records p records = [] <-> len records <= (p - 1) * 10).
Proof.
  intros Hp. unfold page_records, len. split.
  - intros H.
    destruct (Z_le_dec (Z.of_nat (length records)) ((p - 1) * 10)) as [Hle | Hgt];
      [exact Hle | exfalso].
    assert (Hlen : length (firstn 10 (skipn (Z.to_nat ((p - 1) * 10))
                                            records)) = 0%nat)
      by now rewrite H.
    rewrite length_firstn, length_skipn in Hlen. lia.
  - intros H. rewrite skipn_all2 by lia. apply firstn_nil.
Qed.

Lemma py_slice_page_zero {A} (l : list A) : py_slice l (-10) (-10 + 10) = [].
Proof.
  unfold py_slice, slice_bound.
  replace (-10 <? 0) with true by reflexivity.
  replace (-10 + 10 <? 0) with false by reflexivity.
  rewrite Z.min_l by apply len_nonneg.
  replace (Z.to_nat (-10 + 10 - Z.max (-10 + len l) 0)) with 0%nat by lia.
  reflexivity.
Qed.

(** C2, the code at a negative page: page -1 of twenty-five records is not a
    page in range, and yet Python's slice [-20:-10] returns the ten records
    at positions 5 to 14, the sixth record first. *)
Lemma pagination_negative_page :
  page_in_range (-1) sample_25 = false
  /\ pagination (page_request (-1)) sample_25
     = map format (firstn 10 (skipn 5 sample_25))
  /\ pagination (page_request (-1)) sample_25 <> [].
Proof.
  split; [reflexivity |]. split; [reflexivity |]. discriminate.
Qed.

(** C2, for page numbers that are not negative: the helper never returns
    more than ten records, whatever the page; for a page
    number p >= 1 it returns exactly the records at positions (p-1)*10
    (inclusive) to (p-1)*10+10 (exclusive), so the first record of an
    in-range page is the ((p-1)*10+1)-th of the sequence; and for p >= 0
    every page out of range (page 0, or a page that starts past the end)
    is empty. *)
Theorem pagination_page request selection :
  let p := args_get_page request 1 in
  let formatted := map format selection in
  (length (pagination request selection) <= 10)%nat
  /\ (1 <= p ->
      pagination request selection
      = firstn 10 (skipn (Z.to_nat ((p - 1) * 10)) formatted))
  /\ (1 <= p -> forall k, (k < 10)%nat ->
      nth_error (pagination request selection) k
      = nth_error formatted (Z.to_nat ((p - 1) * 10) + k))
  /\ (page_in_range p selection = true ->
      exists q, nth_error selection (Z.to_nat ((p - 1) * 10)) = Some q
                /\ hd_error (pagination request selection) = Some (format q))
  /\ (0 <= p -> page_in_range p selection = false ->
      pagination request selection = []).
Proof.
  intros p formatted. rewrite pagination_unfold. fold p formatted.
  assert (Hpos : 1 <= p ->
                 py_slice formatted ((p - 1) * 10) ((p - 1) * 10 + 10)
                 = firstn 10 (skipn (Z.to_nat ((p - 1) * 10)) formatted)).
  { intros Hp. rewrite py_slice_positional by lia.
    now replace (Z.to_nat ((p - 1) * 10 + 10 - (p - 1) * 10)) with 10%nat
      by lia. }
  assert (Hnth : 1 <= p -> forall k, (k < 10)%nat ->
                 nth_error
                   (py_slice formatted ((p - 1) * 10) ((p - 1) * 10 + 10)) k
                 = nth_error formatted (Z.to_nat ((p - 1) * 10) + k)).
  { intros Hp k Hk. rewrite Hpos by assumption.
    rewrite nth_error_firstn, nth_error_skipn.
    destruct (Nat.ltb_spec k 10); [reflexivity | lia]. }
  split; [apply py_slice_length |].
  split; [exact Hpos |].
  split; [exact Hnth |].
  split.
  - unfold page_in_range, QUESTIONS_PER_PAGE. intros H.
    apply andb_true_iff in H as [H1 H2].
    apply Z.leb_le in H1. apply Z.ltb_lt in H2.
    destruct (nth_error selection (Z.to_nat ((p - 1) * 10))) as [q|] eqn:E.
    + exists q. split; [reflexivity |].
      pose proof (Hnth H1 0%nat ltac:(lia)) as H0.
      rewrite Nat.add_0_r in H0. unfold formatted in H0 at 2.
      rewrite nth_error_map, E in H0. simpl in H0.
      destruct (py_slice _ _ _); simpl in *; congruence.
    + apply nth_error_None in E. unfold len in H2. lia.
  - unfold page_in_range, QUESTIONS_PER_PAGE. intros Hp H.
    apply andb_false_iff in H.
    destruct (Z.eq_dec p 0) as [E | Hne].
    + replace ((p - 1) * 10) with (-10) by lia. apply py_slice_page_zero.
    + destruct H as [H | H];
        [apply Z.leb_gt in H; lia | apply Z.ltb_ge in H].
      rewrite Hpos by lia. rewrite skipn_all2; [apply firstn_nil |].
      unfold formatted. rewrite length_map. unfold len in H. lia.
Qed.

(** The second page of twenty-five records starts at the eleventh. *)
Lemma pagination_page_witness :
  page_in_range 2 sample_25 = true
  /\ exists q, nth_error sample_25 (Z.to_nat ((2 - 1) * 10)) = Some q
               /\ hd_error (pagination (page_request 2) sample_25)
                  = Some (format q).
Proof.
  split; [reflexivity |].
  apply (proj1 (proj2 (proj2 (proj2
           (pagination_page (page_request 2) sample_25))))).
  reflexivity.
Defined.

(** ** Dictionaries and rows with unique ids *)

Lemma key_eqb_refl k : key_eqb k k = true.
Proof. now apply key_eqb_eq. Qed.

Lemma dict_get_set d k v k' :
  dict_get (dict_set d k v) k'
  = if key_eqb k k' then Some v else dict_get d k'.
Proof.
  induction d as [|[k0 v0] d IH]; simpl; [reflexivity |].
  destruct (key_eqb k0 k) eqn:E0; simpl.
  - apply key_eqb_eq in E0. subst k0. now destruct (key_eqb k k').
  - rewrite IH. destruct (key_eqb k0 k') eqn:E1; [| reflexivity].
    destruct (key_eqb k k') eqn:E2; [| reflexivity].
    apply key_eqb_eq in E1, E2. subst. now rewrite key_eqb_refl in E0.
Qed.

Lemma category_mapping_from d cats k v :
  dict_get
    (fold_left (fun d c => dict_set d (KInt (c_id c)) (VStr (c_type c)))
               cats d) k = Some v ->
  dict_get d k = Some v
  \/ exists c, In c cats /\ k = KInt (c_id c) /\ v = VStr (c_type c).
Proof.
  revert d. induction cats as [|c t IH]; simpl; intros d H; [now left |].
  apply IH in H as [H | [c' [Hin [Hk Hv]]]].
  - rewrite dict_get_set in H.
    destruct (key_eqb (KInt (c_id c)) k) eqn:E.
    + apply key_eqb_eq in E. injection H as <-. right. exists c. auto.
    + now left.
  - right. exists c'. auto.
Qed.

Lemma category_mapping_keeps d cats i :
  (forall c, In c cats -> c_id c <> i) ->
  dict_get
    (fold_left (fun d c => dict_set d (KInt (c_id c)) (VStr (c_type c)))
               cats d) (KInt i)
  = dict_get d (KInt i).
Proof.
  revert d. induction cats as [|c t IH]; simpl; intros d H; [reflexivity |].
  rewrite IH by auto. rewrite dict_get_set. simpl.
  destruct (Z.eqb_spec (c_id c) i) as [E | E]; [| reflexivity].
  exfalso. apply (H c); auto.
Qed.

(** With unique category ids the mapping sends the id of every category to
    its type, and has no other entry. *)
Lemma category_mapping_full cats :
  NoDup (map c_id cats) ->
  (forall c, In c cats ->
     dict_get (category_mapping cats) (KInt (c_id c))
     = Some (VStr (c_type c)))
  /\ (forall k v, dict_get (category_mapping cats) k = Some v ->
        exists c, In c cats /\ k = KInt (c_id c) /\ v = VStr (c_type c)).
Proof.
  intros Hnd. split.
  - unfold category_mapping. generalize (@nil (key * value)) as d.
    induction cats as [|c0 t IH]; simpl; intros d c Hin; [contradiction |].
    inversion Hnd as [|? ? Hnot Hnd']; subst.
    destruct Hin as [-> | Hin]; [| now apply IH].
    rewrite category_mapping_keeps.
    + rewrite dict_get_set. simpl. now rewrite Z.eqb_refl.
    + intros c' Hc' E. apply Hnot. rewrite <- E. now apply in_map.
  - intros k v H. apply category_mapping_from in H as [H | H];
      [discriminate | exact H].
Qed.

Lemma filter_id_none {A} (f : A -> Z) (l : list A) (z : Z) :
  (forall x, In x l -> f x <> z) -> filter (fun x => f x =? z) l = [].
Proof.
  induction l as [|a t IH]; simpl; intros H; [reflexivity |].
  destruct (Z.eqb_spec (f a) z) as [E | E].
  - exfalso. apply (H a); auto.
  - apply IH. auto.
Qed.

Lemma filter_id_unique {A} (f : A -> Z) (l : list A) (c : A) :
  NoDup (map f l) -> In c l -> filter (fun x => f x =? f c) l = [c].
Proof.
  induction l as [|a t IH]; simpl; intros Hnd Hin; [contradiction |].
  inversion Hnd as [|? ? Hnot Hnd']; subst.
  destruct Hin as [-> | Hin].
  - rewrite Z.eqb_refl. f_equal. apply filter_id_none.
    intros x Hx E. apply Hnot. rewrite <- E. now apply in_map.
  - destruct (Z.eqb_spec (f a) (f c)) as [E | E].
    + exfalso. apply Hnot. rewrite E. now apply in_map.
    + now apply IH.
Qed.

Lemma filter_other_ids_length (l : list Question) (q : Question) :
  NoDup (map q_id l) -> In q l ->
  len (filter (fun x => negb (q_id x =? q_id q)) l) = len l - 1.
Proof.
  intros Hnd Hin. unfold len.
  pose proof (filter_length (fun x => q_id x =? q_id q) l) as H.
  rewrite (filter_id_unique q_id l q Hnd Hin) in H. simpl in H. lia.
Qed.

(** ** GET /questions *)

(** The two answers of the handler, in terms of what the helper returns. *)
Lemma get_questions_cases request s :
  let selection := order_by le_category_id (questions s) in
  let page := pagination request selection in
  let response := fst (serve (get_questions request) s) in
  Permutation selection (questions s)
  /\ StronglySorted
       (fun a b => q_category a < q_category b
                   \/ (q_category a = q_category b /\ q_id a <= q_id b))
       selection
  /\ snd (serve (get_questions request) s) = s
  /\ (status response = 404 <-> page = [])
  /\ (page = [] -> response = not_fond)
  /\ (page <> [] ->
      response
      = jsonify [ (KStr "success", VBool true);
                  (KStr "questions", VList page);
                  (KStr "total_questions", VInt (len (questions s)));
                  (KStr "categories",
                   VDict (category_mapping (categories s))) ] 200)
  /\ (NoDup (map c_id (categories s)) ->
      forall c, In c (categories s) ->
        dict_get (category_mapping (categories s)) (KInt (c_id c))
        = Some (VStr (c_type c)))
  /\ (forall k v,
        dict_get (category_mapping (categories s)) k = Some v ->
        exists c, In c (categories s)
                  /\ k = KInt (c_id c) /\ v = VStr (c_type c)).
Proof.
  intros selection page response.
  assert (Hrun : serve (get_questions request) s
                 = (if len page =? 0 then not_fond
                    else jsonify
                           [ (KStr "success", VBool true);
                             (KStr "questions", VList page);
                             (KStr "total_questions",
                              VInt (len (questions s)));
                             (KStr "categories",
                              VDict (category_mapping (categories s))) ]
                           200, s)).
  { unfold serve, get_questions, bind, Question_query_all,
      Category_query_all. simpl. fold selection. fold page.
    destruct (len page =? 0); reflexivity. }
  unfold response. rewrite Hrun. simpl.
  split; [apply order_by_perm |].
  split.
  { eapply StronglySorted_weaken; [| apply order_by_category_id_sorted].
    intros a b. apply le_category_id_spec. }
  split; [reflexivity |].
  destruct (Z.eqb_spec (len page) 0) as [E | E].
  - apply len_zero in E.
    split; [split; auto |]. split; [reflexivity |].
    split; [congruence |].
    split; [intros Hnd; now apply category_mapping_full |].
    intros k v H. apply category_mapping_from in H as [H | H];
      [discriminate | exact H].
  - assert (Hne : page <> []) by (intros H; apply E; now apply len_zero).
    split; [split; [discriminate | congruence] |].
    split; [congruence |]. split; [reflexivity |].
    split; [intros Hnd; now apply category_mapping_full |].
    intros k v H. apply category_mapping_from in H as [H | H];
      [discriminate | exact H].
Qed.

Lemma pagination_page_zero (request : Request) (selection : list Question) :
  args_get_page request 1 = 0 -> pagination request selection = [].
Proof.
  intros Hp. rewrite pagination_unfold, Hp. apply py_slice_page_zero.
Qed.

(** C4, the code at a negative page: page -1 is no page of the twenty-five
    questions, and yet the handler answers 200 with the ten questions at
    the positions 5 to 14 instead of 404. *)
Lemma get_questions_negative_page :
  page_in_range (-1) (questions sample_store_25) = false
  /\ status (fst (serve (get_questions (page_request (-1))) sample_store_25))
     = 200
  /\ field (fst (serve (get_questions (page_request (-1))) sample_store_25))
           "questions"
     = Some (VList (map format (sample_rows 6 10))).
Proof.
  repeat split; reflexivity.
Qed.

(** C4, for page numbers that are at least 1: the handler sorts all the
    questions by (category, id) and takes the records at the positions
    (p-1)*10 to (p-1)*10 + 10 of them; it answers 404 exactly when there is
    none, that is when the page starts past the last question, and
    otherwise 200 with those records, the number of all the questions and
    the mapping of every category id to its type.  Page 0 is answered with
    404, and for every page number the answer is 404 exactly when the
    helper returns no record. *)
Theorem get_questions_page request s :
  let p := args_get_page request 1 in
  let selection := order_by le_category_id (questions s) in
  let records := page_records p (map format selection) in
  let response := fst (serve (get_questions request) s) in
  Permutation selection (questions s)
  /\ StronglySorted
       (fun a b => q_category a < q_category b
                   \/ (q_category a = q_category b /\ q_id a <= q_id b))
       selection
  /\ snd (serve (get_questions request) s) = s
  /\ (status response = 404 <-> pagination request selection = [])
  /\ (1 <= p -> pagination request selection = records)
  /\ (1 <= p -> (status response = 404 <-> records = []))
  /\ (1 <= p -> (records = [] <-> len (questions s) <= (p - 1) * 10))
  /\ (1 <= p -> records = [] -> response = not_fond)
  /\ (1 <= p -> records <> [] ->
      response
      = jsonify [ (KStr "success", VBool true);
                  (KStr "questions", VList records);
                  (KStr "total_questions", VInt (len (questions s)));
                  (KStr "categories",
                   VDict (category_mapping (categories s))) ] 200)
  /\ (p = 0 -> response = not_fond)
  /\ (NoDup (map c_id (categories s)) ->
      forall c, In c (categories s) ->
        dict_get (category_mapping (categories s)) (KInt (c_id c))
        = Some (VStr (c_type c)))
  /\ (forall k v,
        dict_get (category_mapping (categories s)) k = Some v ->
        exists c, In c (categories s)
                  /\ k = KInt (c_id c) /\ v = VStr (c_type c)).
Proof.
  intros p selection records response.
  destruct (get_questions_cases request s)
    as (Hperm & Hsort & Hstore & Hiff & Hnil & Hcons & Hfull & Hfrom).
  fold selection in Hperm, Hsort, Hiff, Hnil, Hcons.
  fold response in Hiff, Hnil, Hcons.
  assert (Hpage : 1 <= p -> pagination request selection = records)
    by (intros Hp; now apply pagination_page_records).
  split; [exact Hperm |]. split; [exact Hsort |]. split; [exact Hstore |].
  split; [exact Hiff |]. split; [exact Hpage |].
  split; [intros Hp; rewrite <- (Hpage Hp); exact Hiff |].
  split.
  { intros Hp. unfold records. rewrite (page_records_nil _ _ Hp), len_map.
    unfold len. now rewrite (Permutation_length Hperm). }
  split; [intros Hp Hr; apply Hnil; now rewrite (Hpage Hp) |].
  split.
  { intros Hp Hr. rewrite <- (Hpage Hp). apply Hcons.
    now rewrite (Hpage Hp). }
  split; [intros Hp; apply Hnil; now apply pagination_page_zero |].
  split; [exact Hfull | exact Hfrom].
Qed.

(** The second page of the twenty-five questions: the eleventh to the
    twentieth. *)
Lemma get_questions_page_witness :
  fst (serve (get_questions (page_request 2)) sample_store_25)
  = jsonify
      [ (KStr "success", VBool true);
        (KStr "questions", VList (map format (sample_rows 11 10)));
        (KStr "total_questions", VInt 25);
        (KStr "categories",
         VDict [ (KInt 1, VStr "Science"); (KInt 2, VStr "Art") ]) ] 200.
Proof.
  apply (proj1 (proj2 (proj2 (proj2 (proj2 (proj2 (proj2 (proj2 (proj2
           (get_questions_page (page_request 2) sample_store_25)))))))))).
  - vm_compute. discriminate.
  - vm_compute. discriminate.
Defined.

(** ** GET /categories/<id>/questions *)

(** The answers of the handler, in terms of what the helper returns. *)
Lemma get_questions_by_category_cases request category_id s :
  NoDup (map c_id (categories s)) ->
  let response := fst (serve (get_questions_by_category request category_id) s)
  in
  let selection :=
    filter (fun q => q_category q =? category_id) (questions s) in
  snd (serve (get_questions_by_category request category_id) s) = s
  /\ (status response = 404 <->
      forall c, In c (categories s) -> c_id c <> category_id)
  /\ ((forall c, In c (categories s) -> c_id c <> category_id) ->
      response = not_fond)
  /\ (forall c, In c (categories s) -> c_id c = category_id ->
      response
      = jsonify [ (KStr "questions", VList (pagination request selection));
                  (KStr "total_questions", VInt (len (questions s)));
                  (KStr "current_category", VStr (c_type c)) ] 200)
  /\ (forall c, In c (categories s) -> c_id c = category_id ->
      (forall q, In q (questions s) -> q_category q <> category_id) ->
      response
      = jsonify [ (KStr "questions", VList []);
                  (KStr "total_questions", VInt (len (questions s)));
                  (KStr "current_category", VStr (c_type c)) ] 200).
Proof.
  intros Hnd response selection.
  assert (Hfound : forall c, In c (categories s) -> c_id c = category_id ->
            serve (get_questions_by_category request category_id) s
            = (jsonify
                 [ (KStr "questions", VList (pagination request selection));
                   (KStr "total_questions", VInt (len (questions s)));
                   (KStr "current_category", VStr (c_type c)) ] 200, s)).
  { intros c Hin Hid.
    unfold serve, get_questions_by_category, bind, lift, Question_query_all,
      Category_query_all. simpl.
    assert (Hc : filter (fun x => c_id x =? category_id) (categories s)
                 = [c])
      by (rewrite <- Hid; now apply filter_id_unique).
    rewrite Hc. reflexivity. }
  assert (Hmissing :
            (forall c, In c (categories s) -> c_id c <> category_id) ->
            serve (get_questions_by_category request category_id) s
            = (not_fond, s)).
  { intros Hno.
    unfold serve, get_questions_by_category, bind, lift, Question_query_all,
      Category_query_all. simpl.
    rewrite (filter_id_none c_id _ _ Hno). reflexivity. }
  assert (Hdec : (exists c, In c (categories s) /\ c_id c = category_id)
                 \/ (forall c, In c (categories s) -> c_id c <> category_id)).
  { destruct (filter (fun c => c_id c =? category_id) (categories s))
      as [|c t] eqn:E.
    - right. intros c Hin Hid.
      assert (Hc : In c (filter (fun c => c_id c =? category_id)
                                (categories s))).
      { apply filter_In. split; [exact Hin | now apply Z.eqb_eq]. }
      rewrite E in Hc. contradiction.
    - left. exists c.
      assert (Hc : In c (filter (fun c => c_id c =? category_id)
                                (categories s))) by (rewrite E; now left).
      apply filter_In in Hc as [Hin Hid]. apply Z.eqb_eq in Hid. auto. }
  unfold response.
  split.
  { destruct Hdec as [[c [Hin Hid]] | Hno];
      [rewrite (Hfound c Hin Hid) | rewrite (Hmissing Hno)]; reflexivity. }
  split.
  { destruct Hdec as [[c [Hin Hid]] | Hno].
    - rewrite (Hfound c Hin Hid). simpl. split; [discriminate |].
      intros Hno. exfalso. now apply (Hno c).
    - rewrite (Hmissing Hno). simpl. split; auto. }
  split; [intros Hno; now rewrite (Hmissing Hno) |].
  split; [intros c Hin Hid; now rewrite (Hfound c Hin Hid) |].
  intros c Hin Hid Hnone. rewrite (Hfound c Hin Hid). simpl.
  unfold selection. rewrite (filter_id_none q_category _ _ Hnone).
  now rewrite pagination_nil.
Qed.

(** C6: with unique category ids, the handler answers 404 exactly when no
    category has the id.  For a category that exists it answers 200 with
    the number of all the questions of the store, the type of the category
    and, of the questions whose category is the id, in the order of the
    table, the records at the positions (p-1)*10 to (p-1)*10 + 10 for the
    page p >= 1 of the request (the slice of the helper for any page); the
    list is empty when the category has no question. *)
Theorem get_questions_by_category_found request category_id s :
  NoDup (map c_id (categories s)) ->
  let p := args_get_page request 1 in
  let response := fst (serve (get_questions_by_category request category_id) s)
  in
  let selection :=
    filter (fun q => q_category q =? category_id) (questions s) in
  snd (serve (get_questions_by_category request category_id) s) = s
  /\ (status response = 404 <->
      forall c, In c (categories s) -> c_id c <> category_id)
  /\ ((forall c, In c (categories s) -> c_id c <> category_id) ->
      response = not_fond)
  /\ (forall c, In c (categories s) -> c_id c = category_id ->
      response
      = jsonify [ (KStr "questions", VList (pagination request selection));
                  (KStr "total_questions", VInt (len (questions s)));
                  (KStr "current_category", VStr (c_type c)) ] 200)
  /\ (forall c, In c (categories s) -> c_id c = category_id -> 1 <= p ->
      response
      = jsonify [ (KStr "questions",
                   VList (page_records p (map format selection)));
                  (KStr "total_questions", VInt (len (questions s)));
                  (KStr "current_category", VStr (c_type c)) ] 200)
  /\ (forall c, In c (categories s) -> c_id c = category_id ->
      (forall q, In q (questions s) -> q_category q <> category_id) ->
      response
      = jsonify [ (KStr "questions", VList []);
                  (KStr "total_questions", VInt (len (questions s)));
                  (KStr "current_category", VStr (c_type c)) ] 200).
Proof.
  intros Hnd p response selection.
  destruct (get_questions_by_category_cases request category_id s Hnd)
    as (Hstore & Hiff & Hmissing & Hfound & Hnone).
  fold response in Hiff, Hmissing, Hfound, Hnone.
  fold selection in Hfound.
  split; [exact Hstore |]. split; [exact Hiff |].
  split; [exact Hmissing |]. split; [exact Hfound |].
  split; [| exact Hnone].
  intros c Hin Hid Hp. rewrite (Hfound c Hin Hid).
  now rewrite (pagination_page_records request selection Hp).
Qed.

(** The third page of category 1, which has all the twenty-five questions:
    the twenty-first to the twenty-fifth. *)
Lemma get_questions_by_category_found_witness :
  fst (serve (get_questions_by_category (page_request 3) 1) sample_store_25)
  = jsonify [ (KStr "questions", VList (map format (sample_rows 21 5)));
              (KStr "total_questions", VInt 25);
              (KStr "current_category", VStr "Science") ] 200.
Proof.
  assert (Hnd : NoDup (map c_id (categories sample_store_25))).
  { simpl. repeat constructor; simpl; intuition discriminate. }
  apply (proj1 (proj2 (proj2 (proj2 (proj2
           (get_questions_by_category_found (page_request 3) 1
              sample_store_25 Hnd)))))
           (mkCategory 1 "Science")).
  - simpl. auto.
  - reflexivity.
  - vm_compute. discriminate.
Defined.

(** ** DELETE /questions/<id> *)

Lemma delete_question_run request question_id s :
  serve (delete_question request question_id) s
  = match one_or_none (filter (fun q => q_id q =? question_id) (questions s))
    with
    | Ok (Some question) =>
        let rest :=
          filter (fun q => negb (q_id q =? q_id question)) (questions s) in
        (jsonify
           [ (KStr "success", VBool true);
             (KStr "deleted", VInt (q_id question));
             (KStr "question",
              VList (pagination request (order_by le_id rest)));
             (KStr "total_questions", VInt (len rest)) ] 200,
         mkStore rest (categories s))
    | Ok None | Raise _ => (unprocessable, s)
    end.
Proof.
  unfold serve, delete_question, try_except, bind, lift, Question_query_all.
  simpl. destruct (one_or_none _) as [[question|]|e]; reflexivity.
Qed.

(** What the handler answers for an id that no question has: the [abort(404)]
    is raised inside the [try] and the bare [except] turns it into 422. *)
Lemma delete_question_absent request question_id s :
  (forall q, In q (questions s) -> q_id q <> question_id) ->
  serve (delete_question request question_id) s = (unprocessable, s).
Proof.
  intros Hno. rewrite delete_question_run.
  now rewrite (filter_id_none q_id _ _ Hno).
Qed.

(** C3, the code at a missing id: deleting question 7 from a store that has
    the questions 1, 2 and 3 is answered with 422, not with 404. *)
Lemma delete_question_missing_422 :
  serve (delete_question plain_request 7) sample_store
  = (unprocessable, sample_store)
  /\ status (fst (serve (delete_question plain_request 7) sample_store)) = 422
  /\ status (fst (serve (delete_question plain_request 7) sample_store))
     <> 404
  /\ success_of (fst (serve (delete_question plain_request 7) sample_store))
     = Some (VBool false).
Proof.
  repeat split; try reflexivity. discriminate.
Qed.

(** The answer to the deletion of a question that exists, in terms of what
    the helper returns, and the store it leaves. *)
Lemma delete_question_existing_parts request question_id s q :
  NoDup (map q_id (questions s)) ->
  In q (questions s) ->
  q_id q = question_id ->
  let rest := filter (fun x => negb (q_id x =? question_id)) (questions s) in
  let selection := order_by le_id rest in
  let s' := snd (serve (delete_question request question_id) s) in
  fst (serve (delete_question request question_id) s)
  = jsonify [ (KStr "success", VBool true);
              (KStr "deleted", VInt question_id);
              (KStr "question", VList (pagination request selection));
              (KStr "total_questions", VInt (len (questions s) - 1)) ] 200
  /\ s' = mkStore rest (categories s)
  /\ Permutation (questions s) (q :: questions s')
  /\ (forall x, In x (questions s') <-> In x (questions s) /\ x <> q)
  /\ ~ In question_id (map q_id (questions s'))
  /\ len (questions s') = len (questions s) - 1
  /\ Permutation selection (questions s')
  /\ StronglySorted (fun a b => q_id a <= q_id b) selection
  /\ (forall request' v,
        In v (pagination request'
                (order_by le_category_id (questions s'))) ->
        exists x, v = format x /\ q_id x <> question_id).
Proof.
  intros Hnd Hin Hid rest selection s'.
  assert (Hrun : serve (delete_question request question_id) s
                 = (jsonify
                      [ (KStr "success", VBool true);
                        (KStr "deleted", VInt question_id);
                        (KStr "question",
                         VList (pagination request selection));
                        (KStr "total_questions", VInt (len rest)) ] 200,
                    mkStore rest (categories s))).
  { rewrite delete_question_run. subst question_id.
    rewrite (filter_id_unique q_id _ q Hnd Hin). reflexivity. }
  assert (Hlen : len rest = len (questions s) - 1).
  { unfold rest. subst question_id. now apply filter_other_ids_length. }
  assert (Hmem : forall x, In x rest <-> In x (questions s) /\ x <> q).
  { intros x. unfold rest. rewrite filter_In, negb_true_iff, Z.eqb_neq.
    split; intros [Hx Hne]; split; auto.
    - intros ->. now apply Hne.
    - intros E. apply Hne. subst question_id.
      pose proof (filter_id_unique q_id _ q Hnd Hin) as Hq.
      assert (Hxq : In x (filter (fun y => q_id y =? q_id q) (questions s))).
      { apply filter_In. split; [exact Hx | now apply Z.eqb_eq]. }
      rewrite Hq in Hxq. destruct Hxq as [<- | []]. reflexivity. }
  assert (Hgone : ~ In question_id (map q_id rest)).
  { intros H. apply in_map_iff in H as [x [Hx Hxin]].
    unfold rest in Hxin. apply filter_In in Hxin as [_ Hne].
    apply negb_true_iff, Z.eqb_neq in Hne. contradiction. }
  unfold s'. rewrite Hrun. simpl.
  split; [now rewrite Hlen |].
  split; [reflexivity |].
  split.
  { apply NoDup_Permutation.
    - eapply NoDup_map_inv; eauto.
    - constructor.
      + intros H. apply Hmem in H. now destruct H.
      + apply NoDup_filter. eapply NoDup_map_inv; eauto.
    - intros x. simpl. rewrite Hmem.
      destruct (Z.eq_dec (q_id x) (q_id q)) as [E | E].
      + assert (Hx : In x (questions s) -> x = q).
        { intros Hx.
          pose proof (filter_id_unique q_id _ q Hnd Hin) as Hq.
          assert (Hxq : In x (filter (fun y => q_id y =? q_id q)
                                     (questions s))).
          { apply filter_In. split; [exact Hx | now apply Z.eqb_eq]. }
          rewrite Hq in Hxq. destruct Hxq as [<- | []]. reflexivity. }
        split; [intros Hx'; left; symmetry; auto |].
        intros [<- | [Hx' _]]; auto.
      + split; [intros Hx; right; split; [exact Hx | congruence] |].
        intros [<- | [Hx' _]]; auto. }
  split; [exact Hmem |].
  split; [exact Hgone |].
  split; [exact Hlen |].
  split; [apply order_by_perm |].
  split.
  { eapply StronglySorted_weaken; [| apply order_by_id_sorted].
    intros a b. unfold le_id. lia. }
  intros request' v Hv.
  apply pagination_incl in Hv as [x [Hx ->]].
  exists x. split; [reflexivity |]. intros E. apply Hgone.
  apply in_map_iff. exists x. split; [exact E |].
  eapply Permutation_in; [apply order_by_perm | exact Hx].
Qed.

(** C7: with unique question ids, deleting a question that exists removes
    that question and no other; the id is no longer among the questions of
    the store nor in any page listed afterwards, and the total reported is
    one less than before.  The response carries the deleted id and, of the
    remaining questions sorted by id, the records at the positions (p-1)*10
    to (p-1)*10 + 10 for the page p >= 1 of the request (the slice of the
    helper for any page). *)
Theorem delete_question_existing request question_id s q :
  NoDup (map q_id (questions s)) ->
  In q (questions s) ->
  q_id q = question_id ->
  let p := args_get_page request 1 in
  let rest := filter (fun x => negb (q_id x =? question_id)) (questions s) in
  let selection := order_by le_id rest in
  let s' := snd (serve (delete_question request question_id) s) in
  fst (serve (delete_question request question_id) s)
  = jsonify [ (KStr "success", VBool true);
              (KStr "deleted", VInt question_id);
              (KStr "question", VList (pagination request selection));
              (KStr "total_questions", VInt (len (questions s) - 1)) ] 200
  /\ (1 <= p ->
      fst (serve (delete_question request question_id) s)
      = jsonify [ (KStr "success", VBool true);
                  (KStr "deleted", VInt question_id);
                  (KStr "question",
                   VList (page_records p (map format selection)));
                  (KStr "total_questions", VInt (len (questions s) - 1)) ]
                200)
  /\ s' = mkStore rest (categories s)
  /\ Permutation (questions s) (q :: questions s')
  /\ (forall x, In x (questions s') <-> In x (questions s) /\ x <> q)
  /\ ~ In question_id (map q_id (questions s'))
  /\ len (questions s') = len (questions s) - 1
  /\ Permutation selection (questions s')
  /\ StronglySorted (fun a b => q_id a <= q_id b) selection
  /\ (forall request' v,
        In v (pagination request'
                (order_by le_category_id (questions s'))) ->
        exists x, v = format x /\ q_id x <> question_id).
Proof.
  intros Hnd Hin Hid p rest selection s'.
  destruct (delete_question_existing_parts request question_id s q
              Hnd Hin Hid) as (Hresp & Hparts).
  fold rest selection in Hresp.
  split; [exact Hresp |].
  split; [| exact Hparts].
  intros Hp. rewrite Hresp.
  now rewrite (pagination_page_records request selection Hp).
Qed.

(** Deleting question 3 of the twenty-five, with page 2 in the request: the
    page holds the questions 12 to 21 of the twenty-four that are left. *)
Lemma delete_question_existing_witness :
  fst (serve (delete_question (page_request 2) 3) sample_store_25)
  = jsonify
      [ (KStr "success", VBool true);
        (KStr "deleted", VInt 3);
        (KStr "question", VList (map format (sample_rows 12 10)));
        (KStr "total_questions", VInt 24) ] 200.
Proof.
  assert (Hnd : NoDup (map q_id (questions sample_store_25))).
  { apply (NoDup_map_inv (fun z => Z.to_nat z)). vm_compute.
    repeat constructor; simpl; intuition discriminate. }
  assert (Hin : In (sample_question 3 1 "What?") (questions sample_store_25))
    by (simpl; auto).
  apply (proj1 (proj2 (delete_question_existing (page_request 2) 3
                         sample_store_25 (sample_question 3 1 "What?")
                         Hnd Hin eq_refl))).
  vm_compute. discriminate.
Defined.

(** ** POST /quizzes: the loop *)

(** One unfolding of the [while] loop. *)
Lemma quiz_loop_step previous_questions questions i :
  quiz_loop previous_questions questions i
  = if i <? len questions
    then match loop_body previous_questions questions i with
         | Ok (questions', i') => quiz_loop previous_questions questions' i'
         | Raise e => Raise e
         end
    else Ok questions.
Proof.
  simp quiz_loop.
  destruct (Z_lt_dec i (len questions)) as [Hlt | Hge]; simpl.
  - rewrite (proj2 (Z.ltb_lt _ _) Hlt).
    destruct (inspect (loop_body previous_questions questions i))
      as [[[questions' i']|e] Heq]; simpl; rewrite Heq; reflexivity.
  - rewrite (proj2 (Z.ltb_ge _ _)) by lia. reflexivity.
Qed.

Lemma len_app {A} (l1 l2 : list A) : len (l1 ++ l2) = len l1 + len l2.
Proof. unfold len. rewrite length_app. lia. Qed.

Lemma remove_nth_middle {A} (done : list A) (a : A) (rest : list A) :
  remove_nth (length done) (done ++ a :: rest) = done ++ rest.
Proof. induction done as [|b t IH]; simpl; [reflexivity | now rewrite IH]. Qed.

Lemma py_index_middle {A} (done : list A) (a : A) (rest : list A) :
  py_index (done ++ a :: rest) (len done) = Ok a.
Proof.
  unfold py_index. cbv zeta. pose proof (len_nonneg done) as H0.
  rewrite (proj2 (Z.ltb_ge (len done) 0)) by lia.
  rewrite (proj2 (Z.leb_le 0 (len done))) by lia.
  rewrite (proj2 (Z.ltb_lt (len done) (len (done ++ a :: rest)))).
  2:{ rewrite len_app. unfold len at 3. simpl length. lia. }
  simpl. unfold len. rewrite Nat2Z.id, nth_error_app2 by lia.
  now rewrite Nat.sub_diag.
Qed.

Lemma py_del_middle {A} (done : list A) (a : A) (rest : list A) :
  py_del (done ++ a :: rest) (len done) = Ok (done ++ rest).
Proof.
  unfold py_del. cbv zeta. pose proof (len_nonneg done) as H0.
  rewrite (proj2 (Z.ltb_ge (len done) 0)) by lia.
  rewrite (proj2 (Z.leb_le 0 (len done))) by lia.
  rewrite (proj2 (Z.ltb_lt (len done) (len (done ++ a :: rest)))).
  2:{ rewrite len_app. unfold len at 3. simpl length. lia. }
  simpl. unfold len. now rewrite Nat2Z.id, remove_nth_middle.
Qed.

(** The invariant of the loop: with the index at the end of the questions
    already kept, the loop keeps them and filters the rest. *)
Lemma quiz_loop_invariant previous_questions rest : forall done,
  quiz_loop previous_questions (done ++ rest) (len done)
  = (kept <~ filter_not_previous previous_questions rest ;;
     Ok (done ++ kept)).
Proof.
  induction rest as [|q t IH]; intros done.
  - rewrite quiz_loop_step, app_nil_r, Z.ltb_irrefl. simpl.
    now rewrite app_nil_r.
  - rewrite quiz_loop_step.
    rewrite (proj2 (Z.ltb_lt (len done) (len (done ++ q :: t)))).
    2:{ rewrite len_app. unfold len at 3. simpl length. lia. }
    unfold loop_body. rewrite py_index_middle. simpl.
    destruct (py_in (q_id q) previous_questions) as [[|]|e]; simpl.
    + rewrite py_del_middle. simpl.
      replace (len done - 1 + 1) with (len done) by lia.
      rewrite IH.
      destruct (filter_not_previous previous_questions t); reflexivity.
    + replace (done ++ q :: t) with ((done ++ [q]) ++ t)
        by (now rewrite <- app_assoc).
      replace (len done + 1) with (len (done ++ [q]))
        by (rewrite len_app; reflexivity).
      rewrite IH.
      destruct (filter_not_previous previous_questions t); simpl;
        [now rewrite <- app_assoc | reflexivity].
    + reflexivity.
Qed.

Lemma filter_not_previous_list elements questions :
  filter_not_previous (VList elements) questions
  = Ok (filter (fun q => negb (existsb (py_eq_int (q_id q)) elements))
               questions).
Proof.
  induction questions as [|q t IH]; simpl; [reflexivity |].
  rewrite IH. simpl. now destruct (existsb _ _).
Qed.

(** C9: started at index 0, the in-place deletion loop computes what the
    filter [q for q in questions if q.id not in previous_questions]
    computes, for every list of questions and every value of
    [previous_questions]: the same list in the same order, or the same
    exception when [previous_questions] is not a container; for a sequence
    it is the list of the questions whose id equals no element of it. *)
Theorem quiz_loop_is_filter previous_questions questions :
  quiz_loop previous_questions questions 0
  = filter_not_previous previous_questions questions
  /\ forall elements,
       previous_questions = VList elements ->
       quiz_loop previous_questions questions 0
       = Ok (filter (fun q => negb (existsb (py_eq_int (q_id q)) elements))
                    questions).
Proof.
  assert (H : quiz_loop previous_questions questions 0
              = filter_not_previous previous_questions questions).
  { change (quiz_loop previous_questions questions 0)
      with (quiz_loop previous_questions ([] ++ questions)
                      (len (@nil Question))).
    rewrite quiz_loop_invariant.
    destruct (filter_not_previous previous_questions questions); reflexivity. }
  split; [exact H |].
  intros elements ->. rewrite H. apply filter_not_previous_list.
Qed.

(** The loop on the sample store with the questions 1 and 3 already asked. *)
Lemma quiz_loop_is_filter_witness :
  quiz_loop (VList [VInt 1; VInt 3]) (questions sample_store) 0
  = Ok [sample_question 2 2 "What_is"].
Proof.
  exact (proj2 (quiz_loop_is_filter (VList [VInt 1; VInt 3])
                  (questions sample_store)) [VInt 1; VInt 3] eq_refl).
Defined.

(** ** POST /quizzes: the handler *)

Lemma py_index_in_range {A} (l : list A) (k : Z) :
  0 <= k < len l ->
  exists a, py_index l k = Ok a /\ In a l.
Proof.
  intros [H0 H1]. unfold py_index. cbv zeta.
  rewrite (proj2 (Z.ltb_ge k 0)) by lia.
  rewrite (proj2 (Z.leb_le 0 k)) by lia.
  rewrite (proj2 (Z.ltb_lt k (len l))) by lia. simpl.
  destruct (nth_error l (Z.to_nat k)) as [a|] eqn:E.
  - exists a. split; [reflexivity |]. eapply nth_error_In; eauto.
  - apply nth_error_None in E. unfold len in H1. lia.
Qed.

Lemma existsb_eq_int x (l : list Z) :
  existsb (py_eq_int x) (map VInt l) = existsb (Z.eqb x) l.
Proof. induction l as [|a t IH]; simpl; [reflexivity | now rewrite IH]. Qed.

Lemma existsb_eqb_In x (l : list Z) :
  existsb (Z.eqb x) l = true <-> In x l.
Proof.
  rewrite existsb_exists. split.
  - intros [y [Hy E]]. apply Z.eqb_eq in E. now subst.
  - intros H. exists x. split; [exact H | apply Z.eqb_refl].
Qed.

Section QuizProperties.

Variable randint : Z -> Z -> Z.
Variable coerce_other : value -> result (option Z).

(** The contract of [random.randint]: a value of the range. *)
Hypothesis randint_range : forall a b, a <= b -> a <= randint a b <= b.

(** C10: the index expression is evaluated only for a list that is not
    empty (for the empty one the handler returns the empty string, where
    the range of [randint] would be empty), and then the index drawn lies
    in [0, len(questions) - 1] and the access yields a question of the
    list. *)
Theorem random_question_in_bounds (questions : list Question) :
  (questions = [] ->
   random_question randint questions = Ok (VStr "")
   /\ random_randint randint 0 (len questions - 1) = Raise ValueError)
  /\ (questions <> [] ->
      exists k q,
        random_randint randint 0 (len questions - 1) = Ok k
        /\ 0 <= k <= len questions - 1
        /\ py_index questions k = Ok q
        /\ In q questions
        /\ random_question randint questions = Ok (format q)).
Proof.
  split.
  - intros ->. split; reflexivity.
  - intros Hne.
    assert (Hlen : 0 < len questions).
    { pose proof (len_nonneg questions).
      destruct (Z.eq_dec (len questions) 0) as [E | E]; [| lia].
      apply len_zero in E. contradiction. }
    assert (Hk : 0 <= randint 0 (len questions - 1) <= len questions - 1)
      by (apply randint_range; lia).
    destruct (py_index_in_range questions (randint 0 (len questions - 1))
                ltac:(lia)) as [q [Hq Hin]].
    exists (randint 0 (len questions - 1)), q.
    assert (Hr : random_randint randint 0 (len questions - 1)
                 = Ok (randint 0 (len questions - 1))).
    { unfold random_randint.
      now rewrite (proj2 (Z.leb_le 0 (len questions - 1))) by lia. }
    repeat split; try assumption; try lia.
    unfold random_question.
    rewrite (proj2 (Z.eqb_neq (len questions) 0)) by lia.
    rewrite Hr. simpl. now rewrite Hq.
Qed.

Lemma quiz_pool_int category_id s :
  quiz_pool coerce_other (VInt category_id) s
  = (Ok (candidate_pool s category_id), s).
Proof.
  unfold quiz_pool, candidate_pool, bind, lift, Category_query_all,
    Question_query_all, categories_with_id. simpl.
  induction (categories s) as [|c t IH]; simpl; [reflexivity |].
  destruct (Z.eqb_spec (c_id c) category_id) as [E | E]; simpl.
  - now rewrite E.
  - exact IH.
Qed.

(** What the handler answers once the [try] block has read the two
    fields. *)
Lemma quiz_run request data quiz_category previous_questions category_id s :
  request_json request = Ok data ->
  py_getitem data "previous_questions" = Ok previous_questions ->
  py_getitem data "quiz_category" = Ok quiz_category ->
  py_getitem quiz_category "id" = Ok (VInt category_id) ->
  serve (quiz randint coerce_other request) s
  = match (questions <~ quiz_loop previous_questions
                          (candidate_pool s category_id) 0 ;;
           random_question randint questions) with
    | Ok chosen => (jsonify [ (KStr "success", VBool true);
                              (KStr "question", chosen) ] 200, s)
    | Raise e => (handle_exception e, s)
    end.
Proof.
  intros Hjson Hprev Hcat Hid.
  unfold serve, quiz, quiz_fields, try_except, bind, lift, ret.
  rewrite Hjson, Hprev, Hcat, Hid, quiz_pool_int.
  destruct (quiz_loop previous_questions _ 0) as [questions|e]; simpl;
    [| reflexivity].
  destruct (random_question randint questions); reflexivity.
Qed.

(** C1: for a request whose [previous_questions] is a list of ids and whose
    [quiz_category] carries an integer id, the handler answers 200 with
    success true and leaves the store as it is; the question is the empty
    string when every question of the candidate pool has its id in
    [previous_questions], and otherwise a formatted question of the pool
    whose id is not in [previous_questions]. *)
Theorem quiz_excludes_previous
        request data quiz_category previous category_id s :
  request_json request = Ok data ->
  py_getitem data "previous_questions" = Ok (VList (map VInt previous)) ->
  py_getitem data "quiz_category" = Ok quiz_category ->
  py_getitem quiz_category "id" = Ok (VInt category_id) ->
  let pool := candidate_pool s category_id in
  exists chosen,
    serve (quiz randint coerce_other request) s
    = (jsonify [ (KStr "success", VBool true);
                 (KStr "question", chosen) ] 200, s)
    /\ ((forall q, In q pool -> In (q_id q) previous) ->
        chosen = VStr "")
    /\ ((exists q, In q pool /\ ~ In (q_id q) previous) ->
        exists q, chosen = format q
                  /\ In q pool /\ ~ In (q_id q) previous)
    /\ (forall q, chosen = format q -> ~ In (q_id q) previous).
Proof.
  intros Hjson Hprev Hcat Hid pool.
  rewrite (quiz_run _ _ _ _ _ s Hjson Hprev Hcat Hid). fold pool.
  destruct (quiz_loop_is_filter (VList (map VInt previous)) pool)
    as [_ Hloop].
  rewrite (Hloop _ eq_refl). simpl.
  set (remaining :=
         filter (fun q => negb (existsb (py_eq_int (q_id q))
                                        (map VInt previous))) pool).
  assert (Hrem : forall q, In q remaining <->
                           In q pool /\ ~ In (q_id q) previous).
  { intros q. unfold remaining.
    rewrite filter_In, negb_true_iff, existsb_eq_int.
    rewrite <- existsb_eqb_In.
    destruct (existsb (Z.eqb (q_id q)) previous); intuition congruence. }
  destruct (random_question_in_bounds remaining) as [Hempty Hpick].
  destruct remaining as [|q0 rest] eqn:E.
  - destruct (Hempty eq_refl) as [-> _].
    exists (VStr ""). split; [reflexivity |].
    split; [reflexivity |].
    split; [| discriminate].
    intros [q Hq]. apply Hrem in Hq. contradiction.
  - destruct (Hpick ltac:(discriminate)) as [k [q [_ [_ [_ [Hin ->]]]]]].
    apply Hrem in Hin as [Hin Hnot].
    exists (format q). split; [reflexivity |].
    split.
    { intros Hall. exfalso. apply Hnot. now apply Hall. }
    split; [intros _; exists q; auto |].
    intros q' Hq'. unfold format in Hq'. injection Hq' as Hq' _ _ _ _.
    now rewrite <- Hq'.
Qed.

(** C8: when the body lacks [previous_questions] or [quiz_category] the
    handler answers 400 with success false and the store is unchanged. *)
Theorem quiz_missing_field request s :
  has_field request "previous_questions" = false
  \/ has_field request "quiz_category" = false ->
  serve (quiz randint coerce_other request) s = (bad_req, s)
  /\ status (fst (serve (quiz randint coerce_other request) s)) = 400
  /\ success_of (fst (serve (quiz randint coerce_other request) s))
     = Some (VBool false)
  /\ snd (serve (quiz randint coerce_other request) s) = s.
Proof.
  intros H.
  assert (Hrun : serve (quiz randint coerce_other request) s
                 = (bad_req, s)).
  { unfold has_field in H.
    unfold serve, quiz, quiz_fields, try_except, bind, lift, ret,
      request_json.
    destruct (req_body request) as [| |v]; try reflexivity.
    destruct v as [| | | | |d]; try reflexivity. simpl.
    destruct (dict_get d (KStr "previous_questions")) as [pq|];
      [| reflexivity].
    destruct (dict_get d (KStr "quiz_category")) as [qc|];
      [| reflexivity].
    destruct H; discriminate. }
  rewrite Hrun. repeat split.
Qed.

End QuizProperties.

(** The sample generator keeps the contract of [random.randint]. *)
Lemma sample_randint_range a b : a <= b -> a <= sample_randint a b <= b.
Proof. unfold sample_randint. lia. Qed.

Lemma random_question_in_bounds_witness :
  exists k q,
    random_randint sample_randint 0 (len (questions sample_store) - 1) = Ok k
    /\ 0 <= k <= len (questions sample_store) - 1
    /\ py_index (questions sample_store) k = Ok q
    /\ In q (questions sample_store)
    /\ random_question sample_randint (questions sample_store)
       = Ok (format q).
Proof.
  apply (proj2 (random_question_in_bounds sample_randint
                  sample_randint_range (questions sample_store))).
  discriminate.
Defined.

(** The quiz on the sample store, category 1, question 1 already asked. *)
Lemma quiz_excludes_previous_witness :
  exists chosen,
    serve (quiz sample_randint sample_coerce
                (quiz_request (VList [VInt 1]) (VInt 1))) sample_store
    = (jsonify [ (KStr "success", VBool true);
                 (KStr "question", chosen) ] 200, sample_store)
    /\ ((forall q, In q (candidate_pool sample_store 1) -> In (q_id q) [1]) ->
        chosen = VStr "")
    /\ ((exists q, In q (candidate_pool sample_store 1) /\ ~ In (q_id q) [1])
        -> exists q, chosen = format q
                     /\ In q (candidate_pool sample_store 1)
                     /\ ~ In (q_id q) [1])
    /\ (forall q, chosen = format q -> ~ In (q_id q) [1]).
Proof.
  exact (quiz_excludes_previous sample_randint sample_coerce
           sample_randint_range
           (quiz_request (VList [VInt 1]) (VInt 1))
           (VDict [ (KStr "previous_questions", VList [VInt 1]);
                    (KStr "quiz_category", VDict [ (KStr "id", VInt 1) ]) ])
           (VDict [ (KStr "id", VInt 1) ])
           [1] 1 sample_store eq_refl eq_refl eq_refl eq_refl).
Defined.

(** A body without [quiz_category]. *)
Lemma quiz_missing_field_witness :
  serve (quiz sample_randint sample_coerce
              (json_request
                 (VDict [ (KStr "previous_questions", VList []) ])))
        sample_store
  = (bad_req, sample_store).
Proof.
  apply (quiz_missing_field sample_randint sample_coerce
           (json_request (VDict [ (KStr "previous_questions", VList []) ]))
           sample_store).
  right. reflexivity.
Defined.

(** ** POST /search *)

Lemma like_percent p s :
  like (String "%" p) s
  = like p s
    || match s with
       | EmptyString => false
       | String _ s' => like (String "%" p) s'
       end.
Proof. destruct s; reflexivity. Qed.

Lemma like_literal_ascii c p s :
  literal_ascii c = true ->
  like (String c p) s
  = match s with
    | EmptyString => false
    | String x s' => Ascii.eqb x c && like p s'
    end.
Proof.
  unfold literal_ascii. intros H.
  apply andb_true_iff in H as [H H3]. apply andb_true_iff in H as [H1 H2].
  apply negb_true_iff in H1, H2, H3. simpl. now rewrite H1, H2, H3.
Qed.

Lemma like_only_percent s : like "%" s = true.
Proof.
  induction s as [|x s IH]; [reflexivity |].
  rewrite like_percent, IH. apply orb_true_r.
Qed.

Lemma like_literal_prefix t : forall s,
  literal t = true -> like (t ++ "%")%string s = prefix_of t s.
Proof.
  induction t as [|c t IH]; intros s H.
  - apply like_only_percent.
  - simpl in H. apply andb_true_iff in H as [Hc Ht].
    change (String c t ++ "%")%string with (String c (t ++ "%")%string).
    rewrite like_literal_ascii by exact Hc.
    destruct s as [|x s]; [reflexivity |]. simpl. now rewrite IH.
Qed.

Lemma like_literal_contains t s :
  literal t = true -> like ("%" ++ t ++ "%")%string s = contains t s.
Proof.
  intros H. change ("%" ++ t ++ "%")%string with (String "%" (t ++ "%")%string).
  induction s as [|x s IH]; rewrite like_percent, like_literal_prefix by exact H.
  - reflexivity.
  - rewrite IH. reflexivity.
Qed.

Lemma lower_app a b : lower (a ++ b)%string = (lower a ++ lower b)%string.
Proof. induction a as [|c a IH]; simpl; [reflexivity | now rewrite IH]. Qed.

Lemma literal_lower_ascii c : literal_ascii (lower_ascii c) = literal_ascii c.
Proof. destruct c as [[] [] [] [] [] [] [] []]; reflexivity. Qed.

Lemma literal_lower t : literal (lower t) = literal t.
Proof.
  induction t as [|c t IH]; simpl; [reflexivity |].
  now rewrite literal_lower_ascii, IH.
Qed.

(** For a term without wildcard characters the match of the model is the
    containment without case (of ASCII text, see [lower]). *)
Lemma ilike_literal term text :
  literal term = true ->
  ilike text ("%" ++ term ++ "%")%string = contains_ci term text.
Proof.
  intros H. unfold ilike, contains_ci.
  rewrite !lower_app. change (lower "%") with "%"%string.
  apply like_literal_contains. now rewrite literal_lower.
Qed.

Lemma py_slice_map {A B} (f : A -> B) (l : list A) (start stop : Z) :
  py_slice (map f l) start stop = map f (py_slice l start stop).
Proof.
  unfold py_slice. rewrite len_map.
  now rewrite <- firstn_map, <- skipn_map.
Qed.

Section SearchProperties.

Variable coerce_other : value -> result (option Z).
Variable format_other : value -> string.

(** The loop over the page never raises: the records of the page are
    formatted questions, whose category is an integer. *)
Lemma collect_categories_formatted cats (page : list Question) :
  forall category,
    collect_categories coerce_other cats (map format page) category
    = Ok (category
          ++ flat_map (fun q => map format_category
                                  (filter (fun c => c_id c =? q_category q)
                                          cats)) page).
Proof.
  induction page as [|q t IH]; intros category; simpl.
  - now rewrite app_nil_r.
  - rewrite IH. now rewrite <- app_assoc.
Qed.

(** What the handler answers for a body whose [searchTerm] is a string. *)
Lemma search_questions_run request data term s :
  request_json request = Ok data ->
  py_get data "searchTerm" = Ok (VStr term) ->
  let found :=
    filter (fun q => ilike (q_question q) ("%" ++ term ++ "%")%string)
           (questions s) in
  serve (search_questions coerce_other format_other request) s
  = (match found with
     | [] => not_fond
     | _ :: _ =>
         jsonify
           [ (KStr "success", VBool true);
             (KStr "questions", VList (map format found));
             (KStr "total_questions", VInt (len found));
             (KStr "current_category",
              VList (flat_map
                       (fun q => map format_category
                                   (filter (fun c => c_id c =? q_category q)
                                           (categories s)))
                       (py_slice found
                          ((args_get_page request 1 - 1) * 10)
                          ((args_get_page request 1 - 1) * 10 + 10)))) ]
           200
     end, s).
Proof.
  intros Hjson Hterm found.
  unfold serve, search_questions, try_except, bind, lift, ret,
    Question_query_all, Category_query_all.
  rewrite Hjson, Hterm.
  change (fstring format_other (VStr term)) with term.
  cbv beta iota zeta. fold found.
  destruct found as [|q0 rest] eqn:E; [reflexivity |].
  replace (len (q0 :: rest) =? 0) with false
    by (symmetry; apply Z.eqb_neq; unfold len; simpl length; lia).
  rewrite pagination_unfold, py_slice_map, collect_categories_formatted.
  rewrite len_map. reflexivity.
Qed.

(** For a term without wildcard characters, on ASCII text, the handler
    does what the specification says: 404 when no question contains the
    term, and otherwise all the questions that contain it, with their
    number. *)
Lemma search_questions_literal request data term s :
  request_json request = Ok data ->
  py_get data "searchTerm" = Ok (VStr term) ->
  literal term = true ->
  let matches :=
    filter (fun q => contains_ci term (q_question q)) (questions s) in
  let response :=
    fst (serve (search_questions coerce_other format_other request) s) in
  snd (serve (search_questions coerce_other format_other request) s) = s
  /\ (matches = [] -> response = not_fond)
  /\ (matches <> [] ->
      exists category,
        response
        = jsonify [ (KStr "success", VBool true);
                    (KStr "questions", VList (map format matches));
                    (KStr "total_questions", VInt (len matches));
                    (KStr "current_category", VList category) ] 200).
Proof.
  intros Hjson Hterm Hlit matches response. unfold response.
  rewrite (search_questions_run request data term s Hjson Hterm).
  assert (E : filter (fun q => ilike (q_question q)
                                     ("%" ++ term ++ "%")%string)
                     (questions s) = matches).
  { unfold matches. apply filter_ext. intros q.
    now apply ilike_literal. }
  rewrite E. simpl. split; [reflexivity |].
  destruct matches as [|q0 rest]; split; try congruence; try reflexivity.
  intros _. eexists. reflexivity.
Qed.

End SearchProperties.

(** C5, the code at a term that is a wildcard: the search for "_" in the
    sample store is answered with 200 and all three questions, although the
    text of none of the first and the third contains an underscore; only the
    second question contains the term. *)
Lemma search_questions_underscore :
  let response :=
    fst (serve (search_questions sample_coerce sample_format
                                 (search_request "_")) sample_store) in
  status response = 200
  /\ (exists rest,
        payload response
        = Some (VDict ((KStr "success", VBool true)
                       :: (KStr "questions",
                           VList (map format (questions sample_store)))
                       :: (KStr "total_questions", VInt 3) :: rest)))
  /\ map (fun q => contains_ci "_" (q_question q)) (questions sample_store)
     = [false; true; false].
Proof.
  split; [reflexivity |]. split; [| reflexivity].
  eexists. reflexivity.
Qed.


(** * Further properties of the handlers *)

(** ** Handlers that only read *)

Lemma read_only_ret {A} (a : A) : read_only (ret a).
Proof. intros s. reflexivity. Qed.

Lemma read_only_raise {A} (e : exn) : read_only (@raise A e).
Proof. intros s. reflexivity. Qed.

Lemma read_only_lift {A} (r : result A) : read_only (lift r).
Proof. intros s. reflexivity. Qed.

Lemma read_only_bind {A B} (m : M A) (f : A -> M B) :
  read_only m -> (forall a, read_only (f a)) -> read_only (bind m f).
Proof.
  intros Hm Hf s. unfold bind. specialize (Hm s).
  destruct (m s) as [[a|e] s1]; simpl in *; subst s1; [apply Hf | reflexivity].
Qed.

Lemma read_only_try {A} (m : M A) (h : exn -> M A) :
  read_only m -> (forall e, read_only (h e)) -> read_only (try_except m h).
Proof.
  intros Hm Hh s. unfold try_except. specialize (Hm s).
  destruct (m s) as [[a|e] s1]; simpl in *; subst s1; [reflexivity | apply Hh].
Qed.

Lemma read_only_questions : read_only Question_query_all.
Proof. intros s. reflexivity. Qed.

Lemma read_only_categories : read_only Category_query_all.
Proof. intros s. reflexivity. Qed.

Lemma read_only_serve (view : M Response) (s : Store) :
  read_only view -> snd (serve view s) = s.
Proof.
  intros H. unfold serve. specialize (H s).
  destruct (view s) as [[r|e] s1]; exact H.
Qed.

Create HintDb read_only.
#[local] Hint Resolve read_only_ret read_only_raise read_only_lift
  read_only_questions read_only_categories : read_only.

Ltac read_only_step :=
  first [ apply read_only_bind; [| intros ?]
        | apply read_only_try; [| intros ?]
        | solve [auto with read_only]
        | unfold abort; apply read_only_raise
        | match goal with
          | |- read_only (if ?b then _ else _) => destruct b
          | |- read_only (match ?x with _ => _ end) => destruct x
          end ].

(** X1: the five handlers that query the store never change it, whatever
    the request and whatever they answer, error responses included. *)
Theorem query_handlers_keep_store
        (randint : Z -> Z -> Z) (coerce_other : value -> result (option Z))
        (format_other : value -> string)
        (request : Request) (category_id : Z) (s : Store) :
  snd (serve get_categories s) = s
  /\ snd (serve (get_questions request) s) = s
  /\ snd (serve (get_questions_by_category request category_id) s) = s
  /\ snd (serve (search_questions coerce_other format_other request) s) = s
  /\ snd (serve (quiz randint coerce_other request) s) = s.
Proof.
  repeat split; apply read_only_serve;
    unfold get_categories, get_questions, get_questions_by_category,
      search_questions, quiz, quiz_fields, quiz_pool;
    cbv zeta; repeat read_only_step.
Qed.

(** ** Paging through a sequence *)

Lemma firstn_plus {A} (a b : nat) (l : list A) :
  firstn (a + b) l = firstn a l ++ firstn b (skipn a l).
Proof.
  revert l. induction a as [|a IH]; intros l; [reflexivity |].
  destruct l as [|x t]; simpl.
  - now rewrite firstn_nil.
  - now rewrite IH.
Qed.

(** X2: the pages 1 to n of a sequence, one after the other, are its first
    10*n formatted records in their order; so once 10*n reaches the length
    of the sequence the pages hold every record exactly once, and nothing
    else. *)
Theorem pagination_pages_cover (b : body) (selection : list Question)
        (n : nat) :
  let pages :=
    concat (map (fun p => pagination (mkRequest (ArgInt (Z.of_nat p)) b)
                                     selection)
                (seq 1 n)) in
  pages = firstn (10 * n) (map format selection)
  /\ (len selection <= 10 * Z.of_nat n -> pages = map format selection).
Proof.
  intros pages.
  assert (H : pages = firstn (10 * n) (map format selection)).
  { unfold pages. clear pages. induction n as [|n IH]; [reflexivity |].
    rewrite seq_S, map_app, concat_app, IH. cbn [map concat].
    rewrite app_nil_r.
    rewrite pagination_positive
      by (change (args_get_page (mkRequest (ArgInt (Z.of_nat (1 + n))) b) 1)
            with (Z.of_nat (1 + n)); lia).
    change (args_get_page (mkRequest (ArgInt (Z.of_nat (1 + n))) b) 1)
      with (Z.of_nat (1 + n)).
    replace (Z.to_nat ((Z.of_nat (1 + n) - 1) * 10)) with (10 * n)%nat by lia.
    replace (10 * S n)%nat with (10 * n + 10)%nat by lia.
    now rewrite firstn_plus. }
  split; [exact H |].
  intros Hlen. rewrite H. apply firstn_all2.
  rewrite length_map. unfold len in Hlen. lia.
Qed.

(** Three pages hold the twenty-five sample questions. *)
Lemma pagination_pages_cover_witness :
  concat (map (fun p => pagination (mkRequest (ArgInt (Z.of_nat p)) NoJson)
                                   sample_25)
              (seq 1 3))
  = map format sample_25.
Proof.
  apply (proj2 (pagination_pages_cover NoJson sample_25 3)).
  vm_compute. discriminate.
Defined.

(** ** GET /categories *)

Lemma categories_loop (cats : list Category) :
  forall d n,
    fold_left (fun st category =>
                 (dict_set (fst st) (KInt (c_id category))
                           (VStr (c_type category)),
                  snd st + 1))
              cats (d, n)
    = (fold_left (fun d c => dict_set d (KInt (c_id c)) (VStr (c_type c)))
                 cats d,
       n + len cats).
Proof.
  induction cats as [|c t IH]; intros d n; simpl.
  - unfold len. simpl. now rewrite Z.add_0_r.
  - rewrite IH. f_equal. unfold len. simpl length. lia.
Qed.

Lemma dict_set_length_new d k v :
  dict_get d k = None -> length (dict_set d k v) = S (length d).
Proof.
  induction d as [|[k0 v0] d IH]; simpl; intros H; [reflexivity |].
  destruct (key_eqb k0 k); [discriminate |]. simpl. now rewrite IH.
Qed.

Lemma dict_set_length_old d k v x :
  dict_get d k = Some x -> length (dict_set d k v) = length d.
Proof.
  induction d as [|[k0 v0] d IH]; simpl; intros H; [discriminate |].
  destruct (key_eqb k0 k); [reflexivity |]. simpl. now rewrite IH.
Qed.

Lemma category_mapping_length_from (cats : list Category) :
  NoDup (map c_id cats) ->
  forall d,
    (forall c, In c cats -> dict_get d (KInt (c_id c)) = None) ->
    length (fold_left (fun d c => dict_set d (KInt (c_id c))
                                           (VStr (c_type c))) cats d)
    = (length d + length cats)%nat.
Proof.
  induction cats as [|c t IH]; intros Hnd d Hd; simpl; [lia |].
  inversion Hnd as [|? ? Hnot Hnd']; subst.
  rewrite IH; [| exact Hnd' |].
  - rewrite dict_set_length_new by (apply Hd; now left). lia.
  - intros c' Hc'. rewrite dict_get_set. simpl.
    destruct (Z.eqb_spec (c_id c) (c_id c')) as [E | E].
    + exfalso. apply Hnot. rewrite E. now apply in_map.
    + apply Hd. now right.
Qed.

Lemma category_mapping_length_le (cats : list Category) :
  forall d,
    (length (fold_left (fun d c => dict_set d (KInt (c_id c))
                                            (VStr (c_type c))) cats d)
     <= length d + length cats)%nat.
Proof.
  induction cats as [|c t IH]; intros d; simpl; [lia |].
  etransitivity; [apply IH |].
  destruct (dict_get d (KInt (c_id c))) as [x|] eqn:E.
  - rewrite (dict_set_length_old _ _ _ x E). lia.
  - rewrite dict_set_length_new by exact E. lia.
Qed.

(** X3: GET /categories always answers 200 with success true, the mapping
    the loop builds and the number of rows of the table (for an empty table
    the empty mapping and 0).  The mapping is the one GET /questions
    returns; it never has more entries than [total_categories], and with
    unique category ids it has exactly that many. *)
Theorem get_categories_answer (s : Store) :
  serve get_categories s
  = (jsonify [ (KStr "success", VBool true);
               (KStr "categories", VDict (category_mapping (categories s)));
               (KStr "total_categories", VInt (len (categories s))) ] 200, s)
  /\ (categories s = [] ->
      field (fst (serve get_categories s)) "categories" = Some (VDict [])
      /\ field (fst (serve get_categories s)) "total_categories"
         = Some (VInt 0))
  /\ (forall request,
        status (fst (serve (get_questions request) s)) = 200 ->
        field (fst (serve (get_questions request) s)) "categories"
        = field (fst (serve get_categories s)) "categories")
  /\ len (category_mapping (categories s)) <= len (categories s)
  /\ (NoDup (map c_id (categories s)) ->
      len (category_mapping (categories s)) = len (categories s)).
Proof.
  assert (Hrun : serve get_categories s
                 = (jsonify
                      [ (KStr "success", VBool true);
                        (KStr "categories",
                         VDict (category_mapping (categories s)));
                        (KStr "total_categories",
                         VInt (len (categories s))) ] 200, s)).
  { unfold serve, get_categories, bind, ret, Category_query_all.
    cbv zeta. simpl. now rewrite categories_loop. }
  rewrite Hrun. split; [reflexivity |].
  split; [intros ->; split; reflexivity |].
  split.
  { intros request.
    unfold serve, get_questions, bind, ret, Question_query_all,
      Category_query_all. simpl.
    destruct (len (pagination request _) =? 0); simpl;
      [discriminate | reflexivity]. }
  split.
  - unfold len, category_mapping.
    pose proof (category_mapping_length_le (categories s) []) as H.
    simpl in H. lia.
  - intros Hnd. unfold len, category_mapping.
    rewrite (category_mapping_length_from (categories s) Hnd [])
      by reflexivity.
    reflexivity.
Qed.

Lemma get_categories_answer_witness :
  len (category_mapping (categories sample_store))
  = len (categories sample_store).
Proof.
  apply (proj2 (proj2 (proj2 (proj2 (get_categories_answer sample_store))))).
  simpl. repeat constructor; simpl; intuition discriminate.
Defined.

(** ** DELETE /questions/<id>: every outcome *)

(** Dropping rows keeps the ids unique. *)
Lemma unique_ids_filter (keep : Question -> bool) (rows : list Question) :
  NoDup (map q_id rows) -> NoDup (map q_id (filter keep rows)).
Proof.
  induction rows as [|row rest IH]; simpl; intros Hnd; [constructor |].
  inversion Hnd as [|? ? Hfresh Hrest]; subst.
  destruct (keep row); simpl; [| now apply IH].
  constructor; [| now apply IH].
  intros Hin. apply Hfresh. apply in_map_iff in Hin as [x [Hx Hin]].
  apply filter_In in Hin as [Hin _]. rewrite <- Hx. now apply in_map.
Qed.

Lemma one_or_none_some {A} (rows : list A) (a : A) :
  one_or_none rows = Ok (Some a) <-> rows = [a].
Proof.
  destruct rows as [|x [|y t]]; simpl; split; intros H;
    try discriminate; congruence.
Qed.

Lemma filter_id_gone (l : list Question) (question_id : Z) :
  forall q,
    In q (filter (fun x => negb (q_id x =? question_id)) l) ->
    q_id q <> question_id.
Proof.
  intros q H. apply filter_In in H as [_ H].
  now apply negb_true_iff, Z.eqb_neq in H.
Qed.

(** X4: DELETE answers 200 exactly when one and only one question has the
    id, and then the store loses the rows of that id and nothing else; in
    every other case, no row or several, it answers 422 and the store is
    as before. *)
Theorem delete_question_outcome (request : Request) (question_id : Z)
        (s : Store) :
  let rows := filter (fun q => q_id q =? question_id) (questions s) in
  let outcome := serve (delete_question request question_id) s in
  (status (fst outcome) = 200 <-> length rows = 1%nat)
  /\ (length rows = 1%nat ->
      field (fst outcome) "deleted" = Some (VInt question_id)
      /\ snd outcome
         = mkStore (filter (fun q => negb (q_id q =? question_id))
                           (questions s))
                   (categories s))
  /\ (length rows <> 1%nat -> outcome = (unprocessable, s)).
Proof.
  intros rows outcome. unfold outcome. rewrite delete_question_run.
  fold rows.
  assert (Hrows : forall q, In q rows -> q_id q = question_id).
  { intros q Hq. apply filter_In in Hq as [_ Hq]. now apply Z.eqb_eq. }
  destruct rows as [|q [|q' t]] eqn:E; simpl.
  - split; [split; discriminate |]. split; [discriminate | reflexivity].
  - rewrite (Hrows q) by now left.
    split; [split; reflexivity |]. split; [| congruence].
    intros _. split; reflexivity.
  - split; [split; discriminate |]. split; [discriminate | reflexivity].
Qed.

Lemma delete_question_outcome_witness :
  field (fst (serve (delete_question plain_request 3) sample_store)) "deleted"
  = Some (VInt 3)
  /\ snd (serve (delete_question plain_request 3) sample_store)
     = mkStore [ sample_question 1 1 "a"; sample_question 2 2 "What_is" ]
               (categories sample_store).
Proof.
  apply (proj1 (proj2 (delete_question_outcome plain_request 3 sample_store))).
  reflexivity.
Defined.

(** X5: a second DELETE of the same id is always answered with 422 and
    changes nothing, whatever the first one did and whatever the page
    parameters of the two requests. *)
Theorem delete_question_twice (request request' : Request) (question_id : Z)
        (s : Store) :
  let s1 := snd (serve (delete_question request question_id) s) in
  serve (delete_question request' question_id) s1 = (unprocessable, s1).
Proof.
  intros s1. unfold s1. clear s1.
  rewrite (delete_question_run request).
  destruct (one_or_none (filter (fun q => q_id q =? question_id)
                                (questions s)))
    as [[q|]|e] eqn:E.
  - apply one_or_none_some in E.
    assert (Hq : q_id q = question_id).
    { assert (Hin : In q (filter (fun q => q_id q =? question_id)
                                 (questions s))) by (rewrite E; now left).
      apply filter_In in Hin as [_ Hin]. now apply Z.eqb_eq. }
    cbv zeta. simpl snd. apply delete_question_absent. simpl questions.
    rewrite Hq. apply filter_id_gone.
  - simpl snd. rewrite delete_question_run, E. reflexivity.
  - simpl snd. rewrite delete_question_run, E. reflexivity.
Qed.

(** X6: whatever it answers, DELETE never touches the categories, keeps the
    questions of every other id in their order (the table afterwards is the
    table before, filtered), and keeps the question ids unique when they
    were. *)
Theorem delete_question_keeps (request : Request) (question_id : Z)
        (s : Store) :
  let s' := snd (serve (delete_question request question_id) s) in
  categories s' = categories s
  /\ (exists keep,
        questions s' = filter keep (questions s)
        /\ forall x, q_id x <> question_id -> keep x = true)
  /\ (forall x, In x (questions s) -> q_id x <> question_id ->
                In x (questions s'))
  /\ (NoDup (map q_id (questions s)) -> NoDup (map q_id (questions s'))).
Proof.
  intros s'.
  assert (H : categories s' = categories s
              /\ exists keep,
                   questions s' = filter keep (questions s)
                   /\ forall x, q_id x <> question_id -> keep x = true).
  { unfold s'. rewrite delete_question_run.
    destruct (one_or_none (filter (fun q => q_id q =? question_id)
                                  (questions s)))
      as [[q|]|e] eqn:E; cbv zeta; simpl.
    - split; [reflexivity |].
      apply one_or_none_some in E.
      assert (Hq : q_id q = question_id).
      { assert (Hin : In q (filter (fun q => q_id q =? question_id)
                                   (questions s))) by (rewrite E; now left).
        apply filter_In in Hin as [_ Hin]. now apply Z.eqb_eq. }
      exists (fun x => negb (q_id x =? q_id q)). split; [reflexivity |].
      intros x Hx. apply negb_true_iff, Z.eqb_neq. congruence.
    - split; [reflexivity |]. exists (fun _ => true).
      split; [| reflexivity].
      symmetry. apply forallb_filter_id. now apply forallb_forall.
    - split; [reflexivity |]. exists (fun _ => true).
      split; [| reflexivity].
      symmetry. apply forallb_filter_id. now apply forallb_forall. }
  destruct H as [Hcat [keep [Hkeep Hother]]].
  split; [exact Hcat |].
  split; [exists keep; auto |].
  split.
  - intros x Hx Hne. rewrite Hkeep. apply filter_In. auto.
  - intros Hnd. rewrite Hkeep. now apply unique_ids_filter.
Qed.

Lemma delete_question_keeps_witness :
  In (sample_question 1 1 "a")
     (questions (snd (serve (delete_question plain_request 3) sample_store))).
Proof.
  apply (proj1 (proj2 (proj2
           (delete_question_keeps plain_request 3 sample_store)))).
  - simpl. auto.
  - discriminate.
Defined.

(** ** POST /quizzes: bodies of the wrong shape, and the next round *)

Lemma quiz_loop_from_start (previous_questions : value)
      (questions : list Question) :
  quiz_loop previous_questions questions 0
  = filter_not_previous previous_questions questions.
Proof.
  change (quiz_loop previous_questions questions 0)
    with (quiz_loop previous_questions ([] ++ questions)
                    (len (@nil Question))).
  rewrite quiz_loop_invariant.
  destruct (filter_not_previous previous_questions questions); reflexivity.
Qed.

Lemma filter_not_previous_not_container (v : value)
      (questions : list Question) :
  not_container v = true ->
  filter_not_previous v questions
  = match questions with
    | [] => Ok []
    | _ :: _ => Raise TypeError
    end.
Proof.
  intros H. destruct questions as [|q t]; [reflexivity |].
  destruct v; try discriminate; reflexivity.
Qed.

(** X7: a body whose [quiz_category] is there but has no [id] to read (it
    is not an object, or an object without the key) is answered with 400
    and the store is unchanged, whether [previous_questions] is there or
    not. *)
Theorem quiz_category_without_id
        (randint : Z -> Z -> Z) (coerce_other : value -> result (option Z))
        (request : Request) (data quiz_category : value) (e : exn)
        (s : Store) :
  request_json request = Ok data ->
  py_getitem data "quiz_category" = Ok quiz_category ->
  py_getitem quiz_category "id" = Raise e ->
  serve (quiz randint coerce_other request) s = (bad_req, s).
Proof.
  intros Hjson Hcat Hid.
  unfold serve, quiz, quiz_fields, try_except, bind, lift, ret.
  rewrite Hjson.
  destruct (py_getitem data "previous_questions"); [| reflexivity].
  rewrite Hcat, Hid. reflexivity.
Qed.

Lemma quiz_category_without_id_witness :
  serve (quiz sample_randint sample_coerce
              (json_request
                 (VDict [ (KStr "previous_questions", VList []);
                          (KStr "quiz_category", VInt 1) ])))
        sample_store
  = (bad_req, sample_store).
Proof.
  exact (quiz_category_without_id sample_randint sample_coerce
           (json_request
              (VDict [ (KStr "previous_questions", VList []);
                       (KStr "quiz_category", VInt 1) ]))
           (VDict [ (KStr "previous_questions", VList []);
                    (KStr "quiz_category", VInt 1) ])
           (VInt 1) TypeError sample_store eq_refl eq_refl eq_refl).
Defined.

(** X8: when [previous_questions] is there but is not a list or an object
    (a string, a number, a boolean or null), the membership test of the loop
    raises outside any [try]: with a candidate pool that is not empty the
    answer is 500, and only with an empty pool, where the loop body never
    runs, is it 200 with the empty question. *)
Theorem quiz_previous_not_container
        (randint : Z -> Z -> Z) (coerce_other : value -> result (option Z))
        (request : Request) (data quiz_category previous_questions : value)
        (category_id : Z) (s : Store) :
  request_json request = Ok data ->
  py_getitem data "previous_questions" = Ok previous_questions ->
  py_getitem data "quiz_category" = Ok quiz_category ->
  py_getitem quiz_category "id" = Ok (VInt category_id) ->
  not_container previous_questions = true ->
  (candidate_pool s category_id <> [] ->
   serve (quiz randint coerce_other request) s = (server_error, s))
  /\ (candidate_pool s category_id = [] ->
      serve (quiz randint coerce_other request) s
      = (jsonify [ (KStr "success", VBool true);
                   (KStr "question", VStr "") ] 200, s)).
Proof.
  intros Hjson Hprev Hcat Hid Hnc.
  rewrite (quiz_run randint coerce_other request data quiz_category
             previous_questions category_id s Hjson Hprev Hcat Hid).
  rewrite quiz_loop_from_start, filter_not_previous_not_container by exact Hnc.
  destruct (candidate_pool s category_id) as [|q t].
  - split; [congruence | reflexivity].
  - split; [reflexivity | discriminate].
Qed.

Lemma quiz_previous_not_container_witness :
  serve (quiz sample_randint sample_coerce
              (quiz_request (VStr "1,2") (VInt 1))) sample_store
  = (server_error, sample_store).
Proof.
  apply (proj1 (quiz_previous_not_container sample_randint sample_coerce
                  (quiz_request (VStr "1,2") (VInt 1))
                  (VDict [ (KStr "previous_questions", VStr "1,2");
                           (KStr "quiz_category",
                            VDict [ (KStr "id", VInt 1) ]) ])
                  (VDict [ (KStr "id", VInt 1) ]) (VStr "1,2") 1
                  sample_store eq_refl eq_refl eq_refl eq_refl eq_refl)).
  discriminate.
Defined.

(** Two passes over the pool are one pass with both tests. *)
Lemma filter_twice (pool : list Question)
      (first_test second_test : Question -> bool) :
  filter (fun q => first_test q && second_test q) pool
  = filter second_test (filter first_test pool).
Proof.
  induction pool as [|q rest IH]; simpl; [reflexivity |].
  destruct (first_test q); simpl; [destruct (second_test q) |];
    now rewrite IH.
Qed.

Lemma filter_previous_snoc (previous : list Z) (i : Z)
      (pool : list Question) :
  filter (fun q => negb (existsb (py_eq_int (q_id q))
                                 (map VInt (previous ++ [i])))) pool
  = filter (fun q => negb (q_id q =? i))
           (filter (fun q => negb (existsb (py_eq_int (q_id q))
                                           (map VInt previous))) pool).
Proof.
  rewrite <- filter_twice. apply filter_ext. intros q.
  rewrite map_app, existsb_app. simpl.
  now rewrite orb_false_r, negb_orb.
Qed.

(** X9: the next round of a quiz.  With unique question ids, once the id of
    a question still left is added to [previous_questions], the loop leaves
    exactly the questions it left before without that one, in the same
    order: one question fewer in every round. *)
Theorem quiz_next_round (pool : list Question) (previous : list Z)
        (q : Question) :
  NoDup (map q_id pool) ->
  In q pool ->
  ~ In (q_id q) previous ->
  exists remaining,
    quiz_loop (VList (map VInt previous)) pool 0 = Ok remaining
    /\ In q remaining
    /\ quiz_loop (VList (map VInt (previous ++ [q_id q]))) pool 0
       = Ok (filter (fun x => negb (q_id x =? q_id q)) remaining)
    /\ len (filter (fun x => negb (q_id x =? q_id q)) remaining)
       = len remaining - 1
    /\ ~ In q (filter (fun x => negb (q_id x =? q_id q)) remaining).
Proof.
  intros Hnd Hin Hnot.
  exists (filter (fun x => negb (existsb (py_eq_int (q_id x))
                                         (map VInt previous))) pool).
  assert (Hq : In q (filter (fun x => negb (existsb (py_eq_int (q_id x))
                                                    (map VInt previous)))
                            pool)).
  { apply filter_In. split; [exact Hin |].
    rewrite existsb_eq_int. apply negb_true_iff.
    destruct (existsb (Z.eqb (q_id q)) previous) eqn:E; [| reflexivity].
    apply existsb_eqb_In in E. contradiction. }
  split; [rewrite quiz_loop_from_start; apply filter_not_previous_list |].
  split; [exact Hq |].
  split.
  { rewrite quiz_loop_from_start, filter_not_previous_list.
    now rewrite filter_previous_snoc. }
  split.
  - apply filter_other_ids_length; [| exact Hq].
    now apply unique_ids_filter.
  - intros H. apply filter_id_gone in H. now apply H.
Qed.

Lemma quiz_next_round_witness :
  exists remaining,
    quiz_loop (VList (map VInt [1])) (questions sample_store) 0 = Ok remaining
    /\ In (sample_question 3 1 "Who is it?") remaining
    /\ quiz_loop (VList (map VInt ([1] ++ [3]))) (questions sample_store) 0
       = Ok (filter (fun x => negb (q_id x =? 3)) remaining)
    /\ len (filter (fun x => negb (q_id x =? 3)) remaining)
       = len remaining - 1
    /\ ~ In (sample_question 3 1 "Who is it?")
            (filter (fun x => negb (q_id x =? 3)) remaining).
Proof.
  apply (quiz_next_round (questions sample_store) [1]
           (sample_question 3 1 "Who is it?")).
  - simpl. repeat constructor; simpl; intuition discriminate.
  - simpl. auto.
  - simpl. intuition discriminate.
Defined.

(** ** POST /search: failures, pages and terms *)

Section SearchOutcomes.

Variable coerce_other : value -> result (option Z).
Variable format_other : value -> string.

(** What the handler answers once the body has given a [searchTerm], of
    any type. *)
Lemma search_questions_run_any (request : Request) (data term : value)
      (s : Store) :
  request_json request = Ok data ->
  py_get data "searchTerm" = Ok term ->
  let found :=
    filter (fun q => ilike (q_question q)
                           ("%" ++ fstring format_other term ++ "%")%string)
           (questions s) in
  serve (search_questions coerce_other format_other request) s
  = (match found with
     | [] => not_fond
     | _ :: _ =>
         jsonify
           [ (KStr "success", VBool true);
             (KStr "questions", VList (map format found));
             (KStr "total_questions", VInt (len found));
             (KStr "current_category",
              VList (flat_map
                       (fun q => map format_category
                                   (filter (fun c => c_id c =? q_category q)
                                           (categories s)))
                       (py_slice found
                          ((args_get_page request 1 - 1) * 10)
                          ((args_get_page request 1 - 1) * 10 + 10)))) ]
           200
     end, s).
Proof.
  intros Hjson Hterm found.
  unfold serve, search_questions, try_except, bind, lift, ret,
    Question_query_all, Category_query_all.
  rewrite Hjson, Hterm. cbv beta iota zeta. fold found.
  destruct found as [|q0 rest] eqn:E; [reflexivity |].
  replace (len (q0 :: rest) =? 0) with false
    by (symmetry; apply Z.eqb_neq; unfold len; simpl length; lia).
  rewrite pagination_unfold, py_slice_map, collect_categories_formatted.
  rewrite len_map. reflexivity.
Qed.

Lemma search_questions_no_term (request : Request) (s : Store) :
  (forall data term,
     request_json request = Ok data -> py_get data "searchTerm" <> Ok term) ->
  serve (search_questions coerce_other format_other request) s
  = (not_fond, s).
Proof.
  intros H.
  unfold serve, search_questions, try_except, bind, lift, ret.
  destruct (request_json request) as [data|e] eqn:Hjson; [| reflexivity].
  destruct (py_get data "searchTerm") as [term|e] eqn:Hterm; [| reflexivity].
  exfalso. now apply (H data term).
Qed.

(** X10: the search answers either 200 with success true or the 404 error
    body, never anything else: every failure inside the handler ends in
    404.  In particular a request without a JSON body, with a body that does
    not parse, or with a JSON body that is not an object is answered with
    404. *)
Theorem search_questions_fails_with_404 (request : Request) (s : Store) :
  let response :=
    fst (serve (search_questions coerce_other format_other request) s) in
  (response = not_fond
   \/ (status response = 200 /\ field response "success" = Some (VBool true)))
  /\ ((forall d, req_body request <> Json (VDict d)) ->
      response = not_fond).
Proof.
  intros response. unfold response. split.
  - destruct (request_json request) as [data|e] eqn:Hjson.
    + destruct (py_get data "searchTerm") as [term|e] eqn:Hterm.
      * rewrite (search_questions_run_any request data term s Hjson Hterm).
        destruct (filter _ (questions s)); [left | right; split]; reflexivity.
      * rewrite search_questions_no_term; [now left |].
        intros data' term' H. rewrite Hjson in H. injection H as <-.
        rewrite Hterm. discriminate.
    + rewrite search_questions_no_term; [now left |].
      intros data' term' H. rewrite Hjson in H. discriminate.
  - intros Hbody. rewrite search_questions_no_term; [reflexivity |].
    intros data term Hjson. unfold request_json in Hjson.
    destruct (req_body request) as [| |v] eqn:E; try discriminate.
    + injection Hjson as <-. discriminate.
    + injection Hjson as <-.
      destruct v; try discriminate. exfalso. now apply (Hbody d).
Qed.

(** X11: the [page] parameter changes nothing in what the search reports
    as its result: two requests with the same body get the same status, the
    same [questions] (all the matches) and the same [total_questions]; only
    [current_category] follows the page. *)
Theorem search_questions_ignores_page (request request' : Request)
        (s : Store) :
  req_body request = req_body request' ->
  let response :=
    fst (serve (search_questions coerce_other format_other request) s) in
  let response' :=
    fst (serve (search_questions coerce_other format_other request') s) in
  status response = status response'
  /\ field response "success" = field response' "success"
  /\ field response "questions" = field response' "questions"
  /\ field response "total_questions" = field response' "total_questions".
Proof.
  intros Hbody response response'. unfold response, response'.
  assert (Hjson : request_json request = request_json request')
    by (unfold request_json; now rewrite Hbody).
  destruct (request_json request) as [data|e] eqn:E.
  - destruct (py_get data "searchTerm") as [term|e] eqn:Hterm.
    + rewrite (search_questions_run_any request data term s E Hterm).
      rewrite (search_questions_run_any request' data term s
                 (eq_sym Hjson) Hterm).
      destruct (filter _ (questions s)); repeat split; reflexivity.
    + rewrite !search_questions_no_term; [repeat split | |].
      * intros data' term' H. rewrite <- Hjson in H. injection H as <-.
        rewrite Hterm. discriminate.
      * intros data' term' H. rewrite E in H. injection H as <-.
        rewrite Hterm. discriminate.
  - rewrite !search_questions_no_term; [repeat split | |].
    + intros data' term' H. rewrite <- Hjson in H. discriminate.
    + intros data' term' H. rewrite E in H. discriminate.
Qed.

(** X12: the empty search term matches every question: the search answers
    with the whole table and its size, and with 404 only when the table is
    empty. *)
Theorem search_questions_empty_term (request : Request) (data : value)
        (s : Store) :
  request_json request = Ok data ->
  py_get data "searchTerm" = Ok (VStr "") ->
  let response :=
    fst (serve (search_questions coerce_other format_other request) s) in
  (questions s = [] -> response = not_fond)
  /\ (questions s <> [] ->
      status response = 200
      /\ field response "questions"
         = Some (VList (map format (questions s)))
      /\ field response "total_questions"
         = Some (VInt (len (questions s)))).
Proof.
  intros Hjson Hterm response. unfold response.
  rewrite (search_questions_run_any request data (VStr "") s Hjson Hterm).
  change (fstring format_other (VStr "")) with "".
  assert (E : filter (fun q => ilike (q_question q) ("%" ++ "" ++ "%")%string)
                     (questions s) = questions s).
  { apply forallb_filter_id, forallb_forall. intros q _.
    rewrite ilike_literal by reflexivity.
    unfold contains_ci. simpl. now destruct (lower (q_question q)). }
  rewrite E.
  destruct (questions s) as [|q t]; split; try congruence; try reflexivity.
  intros _. repeat split.
Qed.

(** X13: a body without [searchTerm], or with a null one, is not refused:
    [get] yields None, the f-string renders it, and the request is answered
    exactly as a search for the text "None". *)
Theorem search_questions_without_term (request request' : Request)
        (d : list (key * value)) (data' : value) (s : Store) :
  request_json request = Ok (VDict d) ->
  dict_get d (KStr "searchTerm") = None
  \/ dict_get d (KStr "searchTerm") = Some VNone ->
  request_json request' = Ok data' ->
  py_get data' "searchTerm" = Ok (VStr "None") ->
  args_page request' = args_page request ->
  serve (search_questions coerce_other format_other request) s
  = serve (search_questions coerce_other format_other request') s.
Proof.
  intros Hjson Hnone Hjson' Hterm' Hpage.
  assert (Hterm : py_get (VDict d) "searchTerm" = Ok VNone).
  { simpl. destruct Hnone as [-> | ->]; reflexivity. }
  rewrite (search_questions_run_any request _ _ s Hjson Hterm).
  rewrite (search_questions_run_any request' _ _ s Hjson' Hterm').
  unfold args_get_page. rewrite Hpage. reflexivity.
Qed.

(** X14: the case of the term does not matter: two terms that differ only
    in the case of their ASCII letters get the same answer. *)
Theorem search_questions_term_case (request request' : Request)
        (data data' : value) (term term' : string) (s : Store) :
  request_json request = Ok data ->
  py_get data "searchTerm" = Ok (VStr term) ->
  request_json request' = Ok data' ->
  py_get data' "searchTerm" = Ok (VStr term') ->
  args_page request' = args_page request ->
  lower term = lower term' ->
  serve (search_questions coerce_other format_other request) s
  = serve (search_questions coerce_other format_other request') s.
Proof.
  intros Hjson Hterm Hjson' Hterm' Hpage Hlower.
  rewrite (search_questions_run_any request _ _ s Hjson Hterm).
  rewrite (search_questions_run_any request' _ _ s Hjson' Hterm').
  change (fstring format_other (VStr term)) with term.
  change (fstring format_other (VStr term')) with term'.
  assert (E : forall q,
             ilike (q_question q) ("%" ++ term ++ "%")%string
             = ilike (q_question q) ("%" ++ term' ++ "%")%string).
  { intros q. unfold ilike. now rewrite !lower_app, Hlower. }
  rewrite (filter_ext _ _ E).
  unfold args_get_page. rewrite Hpage. reflexivity.
Qed.

End SearchOutcomes.

Lemma search_questions_fails_with_404_witness :
  fst (serve (search_questions sample_coerce sample_format
                               (json_request (VList [VStr "title"])))
             sample_store)
  = not_fond.
Proof.
  apply (proj2 (search_questions_fails_with_404 sample_coerce sample_format
                  (json_request (VList [VStr "title"])) sample_store)).
  intros d. discriminate.
Defined.

Lemma search_questions_ignores_page_witness :
  field (fst (serve (search_questions sample_coerce sample_format
                       (mkRequest (ArgInt 1) (Json (VDict
                          [ (KStr "searchTerm", VStr "is") ]))))
                    sample_store)) "questions"
  = field (fst (serve (search_questions sample_coerce sample_format
                         (mkRequest (ArgInt 200000) (Json (VDict
                            [ (KStr "searchTerm", VStr "is") ]))))
                      sample_store)) "questions".
Proof.
  apply (search_questions_ignores_page sample_coerce sample_format
           (mkRequest (ArgInt 1)
                      (Json (VDict [ (KStr "searchTerm", VStr "is") ])))
           (mkRequest (ArgInt 200000)
                      (Json (VDict [ (KStr "searchTerm", VStr "is") ])))
           sample_store eq_refl).
Defined.

Lemma search_questions_empty_term_witness :
  field (fst (serve (search_questions sample_coerce sample_format
                                      (search_request "")) sample_store))
        "total_questions"
  = Some (VInt 3).
Proof.
  apply (proj2 (search_questions_empty_term sample_coerce sample_format
                  (search_request "")
                  (VDict [ (KStr "searchTerm", VStr "") ])
                  sample_store eq_refl eq_refl)).
  discriminate.
Defined.

Lemma search_questions_without_term_witness :
  serve (search_questions sample_coerce sample_format
                          (json_request (VDict []))) sample_store
  = serve (search_questions sample_coerce sample_format
                            (search_request "None")) sample_store.
Proof.
  apply (search_questions_without_term sample_coerce sample_format
           (json_request (VDict [])) (search_request "None")
           [] (VDict [ (KStr "searchTerm", VStr "None") ]) sample_store
           eq_refl (or_introl eq_refl) eq_refl eq_refl eq_refl).
Defined.

Lemma search_questions_term_case_witness :
  serve (search_questions sample_coerce sample_format
                          (search_request "WHO")) sample_store
  = serve (search_questions sample_coerce sample_format
                            (search_request "who")) sample_store.
Proof.
  apply (search_questions_term_case sample_coerce sample_format
           (search_request "WHO") (search_request "who")
           (VDict [ (KStr "searchTerm", VStr "WHO") ])
           (VDict [ (KStr "searchTerm", VStr "who") ])
           "WHO" "who" sample_store
           eq_refl eq_refl eq_refl eq_refl eq_refl eq_refl).
Defined.

(** ** Error responses *)

Ltac envelope_fields :=
  split; [reflexivity |]; split; [reflexivity |];
  split; [eexists; reflexivity |]; split.

(** X15: the error responses share one envelope.  When a view raises an
    HTTP error with a registered handler (400, 404, 422, 500), or any
    exception that is not an HTTP error, the response carries success
    false, a message, and an [error] field equal to its HTTP status; the
    status is the code of the HTTP error, and 500 for any other
    exception. *)
Theorem error_responses_uniform (view : M Response) (s s1 : Store) (e : exn) :
  view s = (Raise e, s1) ->
  (forall code, e = HTTPException code ->
                code = 400 \/ code = 404 \/ code = 422 \/ code = 500) ->
  let response := fst (serve view s) in
  snd (serve view s) = s1
  /\ field response "success" = Some (VBool false)
  /\ field response "error" = Some (VInt (status response))
  /\ (exists message, field response "message" = Some (VStr message))
  /\ (forall code, e = HTTPException code -> status response = code)
  /\ ((forall code, e <> HTTPException code) -> response = server_error).
Proof.
  intros Hview Hcode response. unfold response, serve. rewrite Hview.
  simpl fst. simpl snd. split; [reflexivity |].
  destruct e as [code| | | | | | |].
  - destruct (Hcode code eq_refl) as [-> | [-> | [-> | ->]]];
      (envelope_fields;
       [ intros code H; now injection H
       | intros H; exfalso; now apply (H _ eq_refl) ]).
  - envelope_fields; [intros code; discriminate | reflexivity].
  - envelope_fields; [intros code; discriminate | reflexivity].
  - envelope_fields; [intros code; discriminate | reflexivity].
  - envelope_fields; [intros code; discriminate | reflexivity].
  - envelope_fields; [intros code; discriminate | reflexivity].
  - envelope_fields; [intros code; discriminate | reflexivity].
  - envelope_fields; [intros code; discriminate | reflexivity].
Qed.

Lemma error_responses_uniform_witness :
  field (fst (serve (delete_question plain_request 7) sample_store)) "error"
  = Some (VInt (status (fst (serve (delete_question plain_request 7)
                                   sample_store)))).
Proof.
  apply (error_responses_uniform (delete_question plain_request 7)
           sample_store sample_store (HTTPException 422) eq_refl).
  intros code H. injection H as <-. auto.
Defined.

(** ** POST /questions *)

Lemma le_difficulty_sorted (l : list Question) :
  StronglySorted (fun a b => q_difficulty a <= q_difficulty b)
                 (order_by le_difficulty l).
Proof.
  eapply StronglySorted_weaken;
    [| apply order_by_sorted; unfold le_difficulty; intros; lia].
  intros a b. unfold le_difficulty. lia.
Qed.

Section CreateProperties.

Variable Question_insert : value -> value -> value -> value -> M Question.

(** X16: the body is read before the [try]: a body that does not parse is
    answered with 400, and a JSON body that is not an object with 500; in
    both cases nothing is inserted and the store is unchanged. *)
Theorem create_question_bad_body (request : Request) (s : Store) :
  (req_body request = BadJson ->
   serve (create_question Question_insert request) s = (bad_req, s))
  /\ (forall v, req_body request = Json v ->
                (forall d, v <> VDict d) ->
                serve (create_question Question_insert request) s
                = (server_error, s)).
Proof.
  unfold serve, create_question, bind, lift, request_json. split.
  - intros ->. reflexivity.
  - intros v -> Hv. destruct v; try reflexivity.
    exfalso. now apply (Hv d).
Qed.

Lemma create_question_run (request : Request) (d : list (key * value))
      (s : Store) :
  request_json request = Ok (VDict d) ->
  serve (create_question Question_insert request) s
  = match Question_insert (get_or_none d "question") (get_or_none d "answer")
                          (get_or_none d "difficulty")
                          (get_or_none d "category") s with
    | (Ok row, s1) =>
        (jsonify
           [ (KStr "success", VBool true);
             (KStr "created", VInt (q_id row));
             (KStr "questions",
              VList (pagination request
                       (order_by le_difficulty (questions s1))));
             (KStr "total_questions", VInt (len (questions s1))) ] 200, s1)
    | (Raise _, s1) => (server_error, s1)
    end.
Proof.
  intros Hjson.
  unfold serve, create_question, try_except, bind, lift, ret,
    Question_query_all.
  rewrite Hjson. unfold py_get, get_or_none.
  destruct (dict_get d (KStr "question")), (dict_get d (KStr "answer")),
    (dict_get d (KStr "difficulty")), (dict_get d (KStr "category"));
    match goal with
    | |- context [Question_insert ?a ?b ?c ?e s] =>
        destruct (Question_insert a b c e s) as [[row|e'] s1]
    end; reflexivity.
Qed.

(** X17: no field of the body is required by the handler: each absent
    field reaches the constructor as None.  When the insertion raises, the
    answer is 500 whatever the exception, and the store is as the insertion
    left it. *)
Theorem create_question_insert_fails (request : Request)
        (d : list (key * value)) (s s1 : Store) (e : exn) :
  request_json request = Ok (VDict d) ->
  Question_insert (get_or_none d "question") (get_or_none d "answer")
                  (get_or_none d "difficulty") (get_or_none d "category") s
  = (Raise e, s1) ->
  serve (create_question Question_insert request) s = (server_error, s1).
Proof.
  intros Hjson Hins. rewrite (create_question_run request d s Hjson), Hins.
  reflexivity.
Qed.

(** X18: when the insertion succeeds the answer is 200 with success true,
    the id of the new row and the size of the table after the insertion,
    and the store is the one the insertion left.  The questions of the
    answer are taken from the table after the insertion, sorted by
    difficulty (rows of equal difficulty in an order the statement leaves
    open): for the page p >= 1 of the request they are the records at the
    positions (p-1)*10 to (p-1)*10 + 10 of that sequence. *)
Theorem create_question_created (request : Request)
        (d : list (key * value)) (s s1 : Store) (row : Question) :
  request_json request = Ok (VDict d) ->
  Question_insert (get_or_none d "question") (get_or_none d "answer")
                  (get_or_none d "difficulty") (get_or_none d "category") s
  = (Ok row, s1) ->
  let p := args_get_page request 1 in
  let outcome := serve (create_question Question_insert request) s in
  snd outcome = s1
  /\ status (fst outcome) = 200
  /\ field (fst outcome) "success" = Some (VBool true)
  /\ field (fst outcome) "created" = Some (VInt (q_id row))
  /\ field (fst outcome) "total_questions" = Some (VInt (len (questions s1)))
  /\ exists selection,
       Permutation selection (questions s1)
       /\ StronglySorted (fun a b => q_difficulty a <= q_difficulty b)
                         selection
       /\ field (fst outcome) "questions"
          = Some (VList (pagination request selection))
       /\ (1 <= p ->
           field (fst outcome) "questions"
           = Some (VList (page_records p (map format selection)))).
Proof.
  intros Hjson Hins p outcome. unfold outcome.
  rewrite (create_question_run request d s Hjson), Hins.
  repeat (split; [reflexivity |]).
  exists (order_by le_difficulty (questions s1)).
  split; [apply order_by_perm |].
  split; [apply le_difficulty_sorted |].
  split; [reflexivity |].
  intros Hp. unfold field. simpl.
  now rewrite (pagination_page_records request _ Hp).
Qed.

End CreateProperties.

Lemma create_question_bad_body_witness :
  serve (create_question sample_insert (json_request (VList []))) sample_store
  = (server_error, sample_store).
Proof.
  apply (proj2 (create_question_bad_body sample_insert
                  (json_request (VList [])) sample_store)
           (VList []) eq_refl).
  intros d. discriminate.
Defined.

(** A body without [answer]: the sample store refuses the None it gets. *)
Lemma create_question_insert_fails_witness :
  serve (create_question sample_insert
           (json_request (VDict [ (KStr "question", VStr "Why?");
                                  (KStr "difficulty", VInt 2);
                                  (KStr "category", VInt 1) ])))
        sample_store
  = (server_error, sample_store).
Proof.
  exact (create_question_insert_fails sample_insert
           (json_request (VDict [ (KStr "question", VStr "Why?");
                                  (KStr "difficulty", VInt 2);
                                  (KStr "category", VInt 1) ]))
           [ (KStr "question", VStr "Why?");
             (KStr "difficulty", VInt 2);
             (KStr "category", VInt 1) ]
           sample_store sample_store StoreError eq_refl eq_refl).
Defined.

(** A question of difficulty 2 added to the twenty-five of difficulty 1,
    with page 3 in the request: the page is cut from a sequence of the
    twenty-six rows sorted by difficulty. *)
Lemma create_question_created_witness :
  exists selection,
    Permutation selection
                (sample_25 ++ [mkQuestion 26 "Why?" "Because" 1 2])
    /\ StronglySorted (fun a b => q_difficulty a <= q_difficulty b) selection
    /\ field (fst (serve (create_question sample_insert
                            (mkRequest (ArgInt 3)
                               (req_body (create_request "Why?" "Because"
                                                         2 1))))
                         sample_store_25)) "questions"
       = Some (VList (page_records 3 (map format selection))).
Proof.
  destruct (create_question_created sample_insert
              (mkRequest (ArgInt 3)
                 (req_body (create_request "Why?" "Because" 2 1)))
              [ (KStr "question", VStr "Why?");
                (KStr "answer", VStr "Because");
                (KStr "difficulty", VInt 2);
                (KStr "category", VInt 1) ]
              sample_store_25
              (mkStore (sample_25 ++ [mkQuestion 26 "Why?" "Because" 1 2])
                       (categories sample_store))
              (mkQuestion 26 "Why?" "Because" 1 2)
              eq_refl eq_refl)
    as (_ & _ & _ & _ & _ & selection & Hperm & Hsort & _ & Hpage).
  exists selection. split; [exact Hperm |]. split; [exact Hsort |].
  apply Hpage. vm_compute. discriminate.
Defined.
